(** * Balanced random cropping and train/test split of spectrogram corpora

    A shallow embedding of [src/random_sampling.py]: the functions
    [determine_num_crops], [get_random_samples], [build_class_sample_dict],
    [create_sample_dicts] and [rand_samp_train_test_split], the script that
    runs them, and the library calls they rely on.

    Conventions of the embedding:
    - a NumPy matrix of shape (frequency_bins, time) is the list of its time
      columns, each column the list of its frequency-bin values, so that
      [matrix.shape[1]] is the length of the list and [matrix[:, a:]] drops
      [a] columns;
    - a Python [dict] is the list of its items in insertion order;
    - a raised exception is a value [inl e] of [result], where [e] carries the
      name of the Python exception class;
    - each of the two random generators the module draws from (NumPy's global
      generator and the standard library's [random] module) is the stream of
      raw draws it is still going to produce;
    - widths, counts and participant ids are natural numbers: negative
      values of [crop_width] and [n_samples] are outside the embedding. *)

From Stdlib Require Import ZArith SpecFloat String Ascii.
From stdpp Require Import list strings pretty.

Open Scope nat_scope.

(** ** Exceptions and the error monad *)

Record exception := PyExc { exc_class : string }.

Definition ValueError : exception := PyExc "ValueError".
Definition ZeroDivisionError : exception := PyExc "ZeroDivisionError".
Definition IndexError : exception := PyExc "IndexError".
Definition FileNotFoundError : exception := PyExc "FileNotFoundError".

Definition result (A : Type) : Type := exception + A.

Definition raise {A} (e : exception) : result A := inl e.
Definition ret {A} (a : A) : result A := inr a.
Definition bind {A B} (m : result A) (k : A -> result B) : result B :=
  match m with
  | inl e => inl e
  | inr a => k a
  end.

Notation "x <- m ;; k" := (bind m (fun x => k))
  (at level 100, m at next level, right associativity).

(** ** Python integer operators and slices *)

(** [a % b] and [a // b] on non-negative integers. *)
Definition py_mod (a b : nat) : result nat :=
  if b =? 0 then raise ZeroDivisionError else ret (a mod b).

Definition py_floordiv (a b : nat) : result nat :=
  if b =? 0 then raise ZeroDivisionError else ret (a / b).

(** The bound of a slice, as [slice.indices] normalises it: a negative bound
    counts from the end, and every bound is clamped to [0, len]. *)
Definition slice_bound (len : nat) (i : Z) : nat :=
  if (i <? 0)%Z then Z.to_nat (Z.max 0 (i + Z.of_nat len))
  else Nat.min (Z.to_nat i) len.

(** [xs[:stop]] and [xs[start:]]. *)
Definition slice_to {A} (stop : Z) (xs : list A) : list A :=
  take (slice_bound (length xs) stop) xs.

Definition slice_from {A} (start : Z) (xs : list A) : list A :=
  drop (slice_bound (length xs) start) xs.

(** [min(xs, key=key)]: the first item of least key; [ValueError] on an empty
    sequence. *)
Fixpoint min_from {A} (key : A -> nat) (best : A) (xs : list A) : A :=
  match xs with
  | [] => best
  | x :: xs' => min_from key (if key x <? key best then x else best) xs'
  end.

Definition py_min {A} (key : A -> nat) (xs : list A) : result A :=
  match xs with
  | [] => raise ValueError
  | x :: xs' => ret (min_from key x xs')
  end.

(** ** Binary64 arithmetic of [int(len(...) * test_size)] *)

Module Binary64.
Definition prec : Z := 53.
Definition emax : Z := 1024.

(** [float(n)] for a Python integer. *)
Definition of_int (n : Z) : spec_float := binary_normalize prec emax n 0 false.

(** The literal [0.2]: 0x3FC999999999999A. *)
Definition lit_0_2 : spec_float := S754_finite false 7205759403792794 (-55).

Definition mul (x y : spec_float) : spec_float := SFmul prec emax x y.

(** [int(x)]: truncation towards zero. *)
Definition to_int (x : spec_float) : Z :=
  match x with
  | S754_finite s m e =>
      let a := if (0 <=? e)%Z then (Z.pos m * 2 ^ e)%Z
               else (Z.pos m / 2 ^ (- e))%Z in
      if s then (- a)%Z else a
  | _ => 0%Z
  end.
End Binary64.

(** ** Matrices *)

(** A spectrogram value; the algorithm only moves values around. *)
Definition pixel : Type := Z.

(** A 2-D array as the list of its columns along axis 1 (time). *)
Definition ndarray : Type := list (list pixel).

(** [m.shape[1]] *)
Definition shape1 (m : ndarray) : nat := length m.

(** [m] has shape [(rows, cols)]. *)
Definition has_shape (rows cols : nat) (m : ndarray) : Prop :=
  length m = cols /\ Forall (fun c => length c = rows) m.

(** [m.shape]: the matrices of the program are rectangular, so the height is
    that of the first column; a matrix without columns keeps no height. *)
Definition shape (m : ndarray) : nat * nat :=
  (match m with [] => 0 | c :: _ => length c end, length m).

(** ** Dictionaries *)

Definition dict (K V : Type) : Type := list (K * V).

Section Dict.
Context {K : Type} `{EqDecision K} {V : Type}.

Definition keys (d : dict K V) : list K := map fst d.

(** The keys of a dictionary are distinct. *)
Definition dict_wf (d : dict K V) : Prop := NoDup (keys d).

(** [d[k]], as an option. *)
Fixpoint dict_get (k : K) (d : dict K V) : option V :=
  match d with
  | [] => None
  | (k', v') :: d' => if decide (k = k') then Some v' else dict_get k d'
  end.

(** [d[k] = v]: an existing key keeps its position, a new one goes last. *)
Fixpoint dict_set (k : K) (v : V) (d : dict K V) : dict K V :=
  match d with
  | [] => [(k, v)]
  | (k', v') :: d' =>
      if decide (k = k') then (k, v) :: d' else (k', v') :: dict_set k v d'
  end.

(** [d.update(items)] *)
Definition dict_update (d : dict K V) (items : list (K * V)) : dict K V :=
  foldl (fun acc kv => dict_set kv.1 kv.2 acc) d items.

(** [{**d1, **d2}] *)
Definition dict_merge (d1 d2 : dict K V) : dict K V :=
  dict_update (dict_update [] d1) d2.
End Dict.

(** ** determine_num_crops *)

Definition determine_num_crops (depressed_dict normal_dict : dict nat ndarray)
    (crop_width : nat) : result nat :=
  let merged_dict := dict_merge normal_dict depressed_dict in
  shortest_clip <- py_min (fun x => shape1 x.2) merged_dict ;;
  let shortest_pixel_width := shape1 shortest_clip.2 in
  num_samples_from_clips <- py_floordiv shortest_pixel_width crop_width ;;
  ret num_samples_from_clips.

(** ** Random generators *)

(** A generator is the stream of raw draws it has left; an exhausted stream
    keeps answering 0. *)
Definition rng : Type := list nat.

(** A uniform draw from [0, n). *)
Definition randbelow (n : nat) (g : rng) : nat * rng :=
  match g with
  | [] => (0, [])
  | x :: g' => (x mod n, g')
  end.

(** *** [random.sample] of the standard library

    The pool algorithm of CPython. For a population that is large compared
    with [k] CPython instead redraws positions until it has [k] different
    ones; both ways return the items at [k] distinct positions in the order
    drawn, and the streams range over all of these (see
    [random_sample_reaches]).

<<
    n = len(population)
    if not 0 <= k <= n: raise ValueError(...)
    pool = list(population)
    for i in range(k):
        j = randbelow(n - i)
        result[i] = pool[j]
        pool[j] = pool[n - i - 1]
>> *)
Fixpoint sample_pool {A} (n : nat) (pool : list A) (i todo : nat) (g : rng)
    : result (list A * rng) :=
  match todo with
  | 0 => ret ([], g)
  | S todo' =>
      let '(j, g1) := randbelow (n - i) g in
      match pool !! j, pool !! (n - i - 1) with
      | Some x, Some y =>
          r <- sample_pool n (<[j := y]> pool) (S i) todo' g1 ;;
          ret (x :: r.1, r.2)
      | _, _ => raise IndexError
      end
  end.

Definition random_sample {A} (population : list A) (k : nat) (g : rng)
    : result (list A * rng) :=
  let n := length population in
  if n <? k then raise ValueError else sample_pool n population 0 k g.

(** *** [numpy.random.permutation] and [numpy.random.choice(replace=False)]

<<
    for i in reversed(range(1, n)):
        j = rk_interval(i, state)          # uniform in [0, i]
        x[i], x[j] = x[j], x[i]
>> *)
Definition swap {A} (i j : nat) (x : list A) : list A :=
  match x !! i, x !! j with
  | Some a, Some b => <[j := a]> (<[i := b]> x)
  | _, _ => x
  end.

Fixpoint shuffle {A} (i : nat) (x : list A) (g : rng) : list A * rng :=
  match i with
  | 0 => (x, g)
  | S i' => let '(j, g1) := randbelow (S i) g in shuffle i' (swap i j x) g1
  end.

Definition np_permutation (n : nat) (g : rng) : list nat * rng :=
  shuffle (n - 1) (seq 0 n) g.

(** [np.random.choice(a, size=size, replace=False)]: the first [size] entries
    of a random permutation of the positions index [a]. A [size] above the
    population is a [ValueError]; an empty population is accepted when no
    sample is taken (NumPy 1.16 and later). *)
Definition np_random_choice {A} (a : list A) (size : nat) (g : rng)
    : result (list A * rng) :=
  let pop_size := length a in
  if pop_size <? size then raise ValueError
  else
    let '(perm, g1) := np_permutation pop_size g in
    let idx := take size perm in
    match mapM (fun i => a !! i) idx with
    | Some chosen => ret (chosen, g1)
    | None => raise IndexError
    end.

(** ** [numpy.split] with a number of sections *)

Fixpoint cut {A} (ary : list A) (section_sizes : list nat) : list (list A) :=
  match section_sizes with
  | [] => []
  | s :: sizes => take s ary :: cut (drop s ary) sizes
  end.

Definition array_split {A} (ary : list A) (Nsections : nat) : list (list A) :=
  let Ntotal := length ary in
  let Neach_section := Ntotal / Nsections in
  let extras := Ntotal mod Nsections in
  cut ary (replicate extras (S Neach_section)
           ++ replicate (Nsections - extras) Neach_section).

(** [np.split(ary, sections, axis=1)]: [N % sections] raises
    [ZeroDivisionError] for no section, an unequal division is a
    [ValueError]. *)
Definition np_split {A} (ary : list A) (sections : nat) : result (list (list A)) :=
  r <- py_mod (length ary) sections ;;
  if r =? 0 then ret (array_split ary sections) else raise ValueError.

(** ** get_random_samples and build_class_sample_dict *)

(** [a / b], used where [a] is a multiple of [b]: the quotient is an integral
    float, kept as the integer [np.split] converts it to. *)
Definition py_truediv (a b : nat) : result nat :=
  if b =? 0 then raise ZeroDivisionError else ret (a / b).

Definition get_random_samples (matrix : ndarray) (n_samples crop_width : nat)
    (g : rng) : result (list ndarray * rng) :=
  r <- py_mod (shape1 matrix) crop_width ;;
  let clipped_mat := slice_from (Z.of_nat r) matrix in
  n_splits <- py_truediv (shape1 clipped_mat) crop_width ;;
  cropped_sample_ls <- np_split clipped_mat n_splits ;;
  samples <- random_sample cropped_sample_ls n_samples g ;;
  ret samples.

Fixpoint build_class_sample_loop (items : list (nat * ndarray))
    (n_samples crop_width : nat) (class_samples_dict : dict nat (list ndarray))
    (g : rng) : result (dict nat (list ndarray) * rng) :=
  match items with
  | [] => ret (class_samples_dict, g)
  | (partic_id, clip_mat) :: items' =>
      samples <- get_random_samples clip_mat n_samples crop_width g ;;
      build_class_sample_loop items' n_samples crop_width
        (dict_set partic_id samples.1 class_samples_dict) samples.2
  end.

Definition build_class_sample_dict (segmented_audio_dict : dict nat ndarray)
    (n_samples crop_width : nat) (g : rng)
    : result (dict nat (list ndarray) * rng) :=
  build_class_sample_loop segmented_audio_dict n_samples crop_width [] g.

(** ** The directory of persisted archives *)

(** An [.npz] archive is the list of its arrays in key order ([arr_0],
    [arr_1], ...); a directory lists its files by name, in the order
    [os.listdir] reports them. *)
Definition npz : Type := list ndarray.
Definition directory : Type := dict string npz.

Definition listdir (dir : directory) : list string := keys dir.

(** [np.savez(os.path.join(path, name), *values)] *)
Definition np_savez (name : string) (values : list ndarray) (dir : directory)
    : directory :=
  dict_set name values dir.

(** [with np.load(dir + "/" + name) as data: ... data.keys()] *)
Definition np_load (dir : directory) (name : string) : result npz :=
  match dict_get name dir with
  | Some data => ret data
  | None => raise FileNotFoundError
  end.

Definition startswith (s : string) (p : string) : bool := String.prefix p s.

(** ** create_sample_dicts *)

(** The loops [for key, values in samples.items(): np.savez(f"{c}{key}.npz")]. *)
Definition save_class (class_prefix : string)
    (samples : dict nat (list ndarray)) (dir : directory) : directory :=
  foldl (fun d kv => np_savez (class_prefix +:+ pretty kv.1 +:+ ".npz") kv.2 d)
        dir samples.

(** [build_class_dictionaries] belongs to another module: the two
    dictionaries it returns are the [corpus] argument; [processed] is the
    content of [data/processed] before the call. *)
Definition create_sample_dicts (corpus : dict nat ndarray * dict nat ndarray)
    (crop_width : nat) (g : rng) (processed : directory)
    : result (directory * rng) :=
  let '(depressed_dict, normal_dict) := corpus in
  n_samples <- determine_num_crops depressed_dict normal_dict crop_width ;;
  depressed_samples <-
    build_class_sample_dict depressed_dict n_samples crop_width g ;;
  normal_samples <-
    build_class_sample_dict normal_dict n_samples crop_width depressed_samples.2 ;;
  ret (save_class "N" normal_samples.1 (save_class "D" depressed_samples.1 processed),
       normal_samples.2).

(** ** rand_samp_train_test_split *)

(** [int(n * test_size)] with [test_size = 0.2]: the integer is converted to
    binary64, the product is rounded to nearest even, and [int] truncates. *)
Definition int_mul_test_size (n : nat) : nat :=
  Z.to_nat (Binary64.to_int
              (Binary64.mul (Binary64.of_int (Z.of_nat n)) Binary64.lit_0_2)).

(** One of the four loops
<<
    for sample in files:
        with np.load(npz_file_dir + "/" + sample) as data:
            for key in data.keys():
                samples.append(data[key])
>> *)
Fixpoint append_crops (npz_file_dir : directory) (files : list string)
    (samples : list ndarray) : result (list ndarray) :=
  match files with
  | [] => ret samples
  | sample :: files' =>
      data <- np_load npz_file_dir sample ;;
      append_crops npz_file_dir files' (samples ++ data)
  end.

(** [np.concatenate((np.ones(len(samples) // 2),
                     np.zeros(len(samples) // 2))).astype(int)] *)
Definition make_labels (samples : list ndarray) : list Z :=
  replicate (length samples / 2) 1%Z ++ replicate (length samples / 2) 0%Z.

(** [np.array(samples)] of a list of matrices: matrices of one shape are
    stacked along a new leading axis, and the stack is kept as the list of
    its entries; an empty list gives an empty array; matrices of different
    shapes cannot be stacked and NumPy (from 1.24) raises ValueError. *)
Definition np_array (samples : list ndarray) : result (list ndarray) :=
  match samples with
  | [] => ret []
  | first :: others =>
      if bool_decide (Forall (fun m => shape m = shape first) others)
      then ret samples
      else raise ValueError
  end.

(** The four values returned. *)
Record split := {
  train_samples : list ndarray;
  train_labels : list Z;
  test_samples : list ndarray;
  test_labels : list Z
}.

Definition dep_samps (npz_file_dir : directory) : list string :=
  filter (fun f => startswith f "D") (listdir npz_file_dir).

Definition norm_samps (npz_file_dir : directory) : list string :=
  filter (fun f => startswith f "N") (listdir npz_file_dir).

Definition max_samples (npz_file_dir : directory) : nat :=
  Nat.min (length (dep_samps npz_file_dir)) (length (norm_samps npz_file_dir)).

Definition rand_samp_train_test_split (npz_file_dir : directory) (g : rng)
    : result (split * rng) :=
  let dep_samps := dep_samps npz_file_dir in
  let norm_samps := norm_samps npz_file_dir in
  let max_samples := Nat.min (length dep_samps) (length norm_samps) in
  dep_select_samps <- np_random_choice dep_samps max_samples g ;;
  norm_select_samps <-
    np_random_choice norm_samps max_samples dep_select_samps.2 ;;
  let num_test_samples := int_mul_test_size (length dep_select_samps.1) in
  train <- append_crops npz_file_dir
             (slice_to (- Z.of_nat num_test_samples) dep_select_samps.1) [] ;;
  train <- append_crops npz_file_dir
             (slice_to (- Z.of_nat num_test_samples) norm_select_samps.1) train ;;
  let train_labels := make_labels train in
  test <- append_crops npz_file_dir
            (slice_from (- Z.of_nat num_test_samples) dep_select_samps.1) [] ;;
  test <- append_crops npz_file_dir
            (slice_from (- Z.of_nat num_test_samples) norm_select_samps.1) test ;;
  let test_labels := make_labels test in
  train_array <- np_array train ;;
  test_array <- np_array test ;;
  ret ({| train_samples := train_array; train_labels := train_labels;
          test_samples := test_array; test_labels := test_labels |},
       norm_select_samps.2).

(** *** What the four loops read

    The arrays of an archive of the directory (none for a name that is not
    there), those of a list of archives, and the participants whose archives
    the train and the test loops read, given the two random selections. *)
Definition crops_of (npz_file_dir : directory) (name : string) : npz :=
  default [] (dict_get name npz_file_dir).

Definition crops_of_all (npz_file_dir : directory) (names : list string)
    : list ndarray :=
  concat (crops_of npz_file_dir <$> names).

Definition train_participants (dep_select_samps norm_select_samps : list string)
    : list string :=
  let num_test_samples := int_mul_test_size (length dep_select_samps) in
  slice_to (- Z.of_nat num_test_samples) dep_select_samps
  ++ slice_to (- Z.of_nat num_test_samples) norm_select_samps.

Definition test_participants (dep_select_samps norm_select_samps : list string)
    : list string :=
  let num_test_samples := int_mul_test_size (length dep_select_samps) in
  slice_from (- Z.of_nat num_test_samples) dep_select_samps
  ++ slice_from (- Z.of_nat num_test_samples) norm_select_samps.

Definition split_of (npz_file_dir : directory)
    (dep_select_samps norm_select_samps : list string) : split :=
  let train :=
    crops_of_all npz_file_dir
      (train_participants dep_select_samps norm_select_samps) in
  let test :=
    crops_of_all npz_file_dir
      (test_participants dep_select_samps norm_select_samps) in
  {| train_samples := train; train_labels := make_labels train;
     test_samples := test; test_labels := make_labels test |}.

(** The participant id in the name [f"{c}{key}.npz"] of an archive: what
    stands between the class prefix and the extension. *)
Definition participant_id (name : string) : string :=
  String.substring 1 (String.length name - 5) name.

(** The number of entries of a label array equal to [v]. *)
Definition count_label (v : Z) (labels : list Z) : nat :=
  length (filter (fun x => x = v) labels).

(** ** The script

    [np.random.seed(15)] runs when the module is loaded and sets NumPy's
    global generator: [np_seed] is the state a seed puts it in.  The
    standard library's [random] module is seeded by the interpreter from
    operating-system entropy when it is imported: [py_random] is that state,
    an input of the run.  The four [np.savez] calls that end the script write
    the components of the result. *)
Definition main (np_seed : nat -> rng) (py_random : rng)
    (corpus : dict nat ndarray * dict nat ndarray) (processed : directory)
    : result split :=
  let np_random := np_seed 15 in
  created <- create_sample_dicts corpus 125 py_random processed ;;
  r <- rand_samp_train_test_split created.1 np_random ;;
  ret r.1.

(** ** The grid of non-overlapping crops

    Segment [i] of a matrix for a crop width: the [crop_width] columns that
    start at column [(shape1 matrix mod crop_width) + i * crop_width], that
    is, after the discarded leading columns. *)
Definition grid_crop (matrix : ndarray) (crop_width i : nat) : ndarray :=
  take crop_width (drop (shape1 matrix mod crop_width + i * crop_width) matrix).

(** ** Vocabulary of the further properties *)

(** The name [f"{c}{key}.npz"] under which [create_sample_dicts] saves the
    crops of participant [key] of the class with prefix [c]. *)
Definition archive_name (class_prefix : string) (key : nat) : string :=
  class_prefix +:+ pretty key +:+ ".npz".

(** The archives one class contributes: one item per participant. *)
Definition archive_items (class_prefix : string)
    (samples : dict nat (list ndarray)) : directory :=
  (fun kv => (archive_name class_prefix kv.1, kv.2)) <$> samples.

(** [crops] are [n_samples] segments of the grid of [matrix], at pairwise
    distinct positions. *)
Definition sampled_from (matrix : ndarray) (n_samples crop_width : nat)
    (crops : list ndarray) : Prop :=
  exists idxs,
    crops = grid_crop matrix crop_width <$> idxs /\
    length idxs = n_samples /\ NoDup idxs /\
    Forall (fun i => i < shape1 matrix / crop_width) idxs.

(** The matrix of a participant is at least one crop wide and has at least
    [n] segments. *)
Definition enough_segments (n w : nat) (item : nat * ndarray) : Prop :=
  w <= shape1 item.2 /\ n <= shape1 item.2 / w.

(** [sampled] is the entry of the class sample dictionary for [item]: the
    same participant, with [n] crops sampled from its matrix. *)
Definition sampled_item (n w : nat) (item : nat * ndarray)
    (sampled : nat * list ndarray) : Prop :=
  sampled.1 = item.1 /\ sampled_from item.2 n w sampled.2.

(** A corpus the script can process: dictionaries with distinct keys, no
    participant id in both, a positive crop width, at least one participant,
    and no matrix narrower than one crop. *)
Definition valid_corpus (dep norm : dict nat ndarray) (w : nat) : Prop :=
  dict_wf dep /\ dict_wf norm /\
  (forall k, k ∈ keys dep -> k ∉ keys norm) /\
  0 < w /\ dep ++ norm <> [] /\
  Forall (fun item => w <= shape1 item.2) (dep ++ norm).

(** Every matrix has [rows] frequency bins. *)
Definition uniform_rows (rows : nat) (d : dict nat ndarray) : Prop :=
  Forall (fun item => Forall (fun c => length c = rows) item.2) d.

(** An archive of [n] crops of shape [(rows, w)]. *)
Definition archive_ok (n rows w : nat) (file : string * npz) : Prop :=
  length file.2 = n /\ Forall (has_shape rows w) file.2.

(** ** Sample inputs *)

(** A one-bin spectrogram of [n] columns holding [start], [start + 1], ... *)
Definition ramp (start n : nat) : ndarray :=
  map (fun i => [Z.of_nat (start + i)]) (seq 0 n).

Definition short_dep : dict nat ndarray := [(301, ramp 0 100)].
Definition short_norm : dict nat ndarray := [(302, ramp 0 300)].

Definition clash_dep : dict nat ndarray := [(7, ramp 0 500)].
Definition clash_norm : dict nat ndarray := [(7, ramp 0 100)].

Definition scenario_dep : dict nat ndarray := [(1, ramp 0 600); (2, ramp 0 500)].
Definition scenario_norm : dict nat ndarray := [(3, ramp 0 1000); (4, ramp 0 400)].

(** A 1 x 1 crop holding [v], and an archive of three such crops. *)
Definition crop1 (v : nat) : ndarray := [[Z.of_nat v]].
Definition archive3 (v : nat) : npz := [crop1 v; crop1 (v + 1); crop1 (v + 2)].

(** The scenario of the specification: 10 depressed and 7 normal persisted
    participants of 3 crops each. *)
Definition scenario_store : directory :=
  ((fun i => ("D" +:+ pretty (300 + i) +:+ ".npz", archive3 (10 * i))) <$> seq 0 10)
  ++ ((fun i => ("N" +:+ pretty (400 + i) +:+ ".npz", archive3 (1000 + 10 * i)))
        <$> seq 0 7).

(** One participant per class, one crop each. *)
Definition tiny_store : directory :=
  [("D301.npz", [crop1 1]); ("N302.npz", [crop1 2])].

(** A store without depressed participants. *)
Definition normal_only_store : directory :=
  [("N302.npz", [crop1 2]); ("N303.npz", [crop1 3])].


(** Five archives per class, of one crop each; the participant id 5 is
    persisted under both prefixes. *)
Definition shared_id_store : directory :=
  ((fun i => ("D" +:+ pretty i +:+ ".npz", [crop1 i])) <$> seq 1 5)
  ++ ((fun i => ("N" +:+ pretty i +:+ ".npz", [crop1 (10 + i)])) <$> seq 5 5).

Definition draws : rng := [3; 1; 4; 1; 5; 9; 2; 6; 5; 3; 5; 8; 9; 7; 9; 3].

(** A corpus of one depressed and one normal participant, two crops wide. *)
Definition two_clip_corpus : dict nat ndarray * dict nat ndarray :=
  ([(301, ramp 0 250)], [(302, ramp 1000 250)]).

(** Closes a decidable goal on concrete data by evaluation. *)
Ltac by_decide := apply (bool_decide_unpack _); vm_compute; exact I.

Ltac valid_corpus_by_evaluation :=
  unfold valid_corpus, dict_wf;
  split_and!;
  [ by_decide | by_decide | apply Forall_forall; by_decide | lia
  | vm_compute; discriminate | by_decide ].

(** * Properties *)

(** ** The error monad *)

Lemma py_mod_pos a b : 0 < b -> py_mod a b = inr (a mod b).
Proof. intros Hb. unfold py_mod. destruct (Nat.eqb_spec b 0); [lia | done]. Qed.

Lemma py_floordiv_pos a b : 0 < b -> py_floordiv a b = inr (a / b).
Proof. intros Hb. unfold py_floordiv. destruct (Nat.eqb_spec b 0); [lia | done]. Qed.

Lemma py_truediv_pos a b : 0 < b -> py_truediv a b = inr (a / b).
Proof. intros Hb. unfold py_truediv. destruct (Nat.eqb_spec b 0); [lia | done]. Qed.

(** ** Slices *)

Lemma slice_from_nat {A} (r : nat) (xs : list A) :
  slice_from (Z.of_nat r) xs = drop r xs.
Proof.
  unfold slice_from, slice_bound.
  destruct (Z.ltb_spec (Z.of_nat r) 0); [lia |].
  rewrite Nat2Z.id. destruct (Nat.le_gt_cases r (length xs)).
  - by rewrite Nat.min_l.
  - rewrite Nat.min_r by lia. by rewrite !drop_ge by lia.
Qed.



Lemma slice_to_neg_pos {A} (k : nat) (xs : list A) :
  0 < k -> slice_to (- Z.of_nat k) xs = take (length xs - k) xs.
Proof.
  intros Hk. unfold slice_to, slice_bound.
  destruct (Z.ltb_spec (- Z.of_nat k) 0); [| lia].
  f_equal. lia.
Qed.

Lemma slice_from_neg_pos {A} (k : nat) (xs : list A) :
  0 < k -> slice_from (- Z.of_nat k) xs = drop (length xs - k) xs.
Proof.
  intros Hk. unfold slice_from, slice_bound.
  destruct (Z.ltb_spec (- Z.of_nat k) 0); [| lia].
  f_equal. lia.
Qed.

(** Whatever the bound, [xs[:b]] and [xs[b:]] cut [xs] in two. *)
Lemma slice_to_from {A} (b : Z) (xs : list A) :
  slice_to b xs ++ slice_from b xs = xs.
Proof. apply take_drop. Qed.

(** ** [min] *)

Lemma min_from_elem {A} (key : A -> nat) (xs : list A) (best : A) :
  min_from key best xs ∈ best :: xs.
Proof.
  revert best. induction xs as [|x xs IH]; intros best; simpl.
  - apply list_elem_of_here.
  - specialize (IH (if key x <? key best then x else best)).
    apply elem_of_cons in IH as [-> | IH].
    + destruct (key x <? key best);
        [apply list_elem_of_further |]; apply list_elem_of_here.
    + by do 2 apply list_elem_of_further.
Qed.

Lemma min_from_least {A} (key : A -> nat) (xs : list A) (best y : A) :
  y ∈ best :: xs -> key (min_from key best xs) <= key y.
Proof.
  revert best y. induction xs as [|x xs IH]; intros best y Hy; simpl.
  - apply list_elem_of_singleton in Hy as ->. lia.
  - destruct (Nat.ltb_spec (key x) (key best)) as [Hlt | Hge].
    + apply elem_of_cons in Hy as [-> | Hy].
      * etrans; [apply (IH x x), list_elem_of_here | lia].
      * apply IH, Hy.
    + apply elem_of_cons in Hy as [-> | Hy].
      * apply IH, list_elem_of_here.
      * apply elem_of_cons in Hy as [-> | Hy].
        -- etrans; [apply (IH best best), list_elem_of_here | lia].
        -- apply IH. by apply list_elem_of_further.
Qed.

Lemma py_min_spec {A} (key : A -> nat) (xs : list A) :
  xs <> [] ->
  exists x, py_min key xs = inr x /\ x ∈ xs /\ forall y, y ∈ xs -> key x <= key y.
Proof.
  destruct xs as [|x xs]; [done | intros _].
  exists (min_from key x xs). split; [done |]. split.
  - apply min_from_elem.
  - intros y. apply min_from_least.
Qed.

(** ** Dictionaries *)

Section DictFacts.
Context {K : Type} `{EqDecision K} {V : Type}.
Implicit Types (d items : dict K V) (k : K) (v : V).

Lemma dict_get_None k d : dict_get k d = None <-> k ∉ keys d.
Proof.
  induction d as [|[k' v'] d IH]; simpl.
  - split; [intros _; apply not_elem_of_nil | done].
  - rewrite not_elem_of_cons. destruct (decide (k = k')); [|tauto].
    split; [done | tauto].
Qed.

Lemma elem_dict_get k v d : NoDup (keys d) -> (k, v) ∈ d -> dict_get k d = Some v.
Proof.
  induction d as [|[k' v'] d IH]; simpl; intros Hnd Hin.
  - by apply elem_of_nil in Hin.
  - apply NoDup_cons in Hnd as [Hk' Hnd].
    apply elem_of_cons in Hin as [[= -> ->] | Hin].
    + by rewrite decide_True.
    + rewrite decide_False; [auto |].
      intros ->. apply Hk'. unfold keys.
      apply list_elem_of_fmap. by exists (k', v).
Qed.

Lemma dict_set_fresh k v d : k ∉ keys d -> dict_set k v d = d ++ [(k, v)].
Proof.
  induction d as [|[k' v'] d IH]; simpl; [done |].
  rewrite not_elem_of_cons. intros [Hne Hk].
  rewrite decide_False by done. by rewrite IH.
Qed.

Lemma dict_get_set k k' v d :
  dict_get k (dict_set k' v d) = if decide (k = k') then Some v else dict_get k d.
Proof.
  induction d as [|[k0 v0] d IH]; simpl.
  - done.
  - destruct (decide (k' = k0)) as [-> | Hne]; simpl.
    + by destruct (decide (k = k0)).
    + rewrite IH. destruct (decide (k = k0)) as [-> | ?]; [|done].
      by rewrite decide_False.
Qed.

Lemma keys_dict_set k v d :
  keys (dict_set k v d) = if decide (k ∈ keys d) then keys d else keys d ++ [k].
Proof.
  induction d as [|[k0 v0] d IH].
  - destruct (decide (k ∈ keys [])) as [Hin | _]; [|done].
    by apply elem_of_nil in Hin.
  - change (keys ((k0, v0) :: d)) with (k0 :: keys d). simpl.
    destruct (decide (k = k0)) as [-> | Hne].
    + destruct (decide (k0 ∈ k0 :: keys d)) as [_ | Hnin]; [done |].
      destruct Hnin. apply list_elem_of_here.
    + change (keys ((k0, v0) :: dict_set k v d)) with (k0 :: keys (dict_set k v d)).
      rewrite IH.
      destruct (decide (k ∈ keys d)) as [Hin | Hnin],
               (decide (k ∈ k0 :: keys d)) as [Hin' | Hnin']; try done.
      * destruct Hnin'. by apply list_elem_of_further.
      * apply elem_of_cons in Hin' as [? | ?]; done.
Qed.

Lemma dict_set_wf k v d : NoDup (keys d) -> NoDup (keys (dict_set k v d)).
Proof.
  intros Hnd. rewrite keys_dict_set. destruct (decide (k ∈ keys d)); [done |].
  apply NoDup_app. split_and!; [done | | apply NoDup_singleton].
  intros x Hx Hx'. apply list_elem_of_singleton in Hx' as ->. done.
Qed.

Lemma dict_update_wf d items : NoDup (keys d) -> NoDup (keys (dict_update d items)).
Proof.
  revert d. induction items as [|[k v] items IH]; intros d Hnd; simpl; [done |].
  apply IH. by apply dict_set_wf.
Qed.

Lemma dict_merge_wf d1 d2 : NoDup (keys (dict_merge d1 d2)).
Proof. unfold dict_merge. do 2 apply dict_update_wf. apply NoDup_nil_2. Qed.

(** Updating with items of distinct fresh keys appends them. *)
Lemma dict_update_fresh d items :
  NoDup (keys (d ++ items)) -> dict_update d items = d ++ items.
Proof.
  revert d. induction items as [|[k v] items IH]; intros d Hnd; simpl.
  - by rewrite app_nil_r.
  - assert (d ++ (k, v) :: items = (d ++ [(k, v)]) ++ items) as Heq
      by by rewrite <- app_assoc.
    rewrite Heq in Hnd |- *. rewrite dict_set_fresh; [by apply IH |].
    unfold keys in Hnd. rewrite !map_app in Hnd.
    apply NoDup_app in Hnd as [Hnd _]. apply NoDup_app in Hnd as (_ & Hdis & _).
    intros Hin. apply (Hdis k Hin). apply list_elem_of_here.
Qed.

(** An update sets the keys of [items] and keeps the others. *)
Lemma dict_get_update k d items :
  NoDup (keys items) ->
  dict_get k (dict_update d items) =
    match dict_get k items with Some v => Some v | None => dict_get k d end.
Proof.
  revert d. induction items as [|[k' v'] items IH]; intros d Hnd; [done |].
  change (keys ((k', v') :: items)) with (k' :: keys items) in Hnd.
  apply NoDup_cons in Hnd as [Hk' Hnd]. simpl. rewrite IH by done.
  rewrite dict_get_set. destruct (decide (k = k')) as [-> | Hne]; [|done].
  apply dict_get_None in Hk'. by rewrite Hk'.
Qed.

(** For dictionaries with disjoint keys [{**d1, **d2}] lists the items of
    [d1], then those of [d2]. *)
Lemma dict_merge_disjoint d1 d2 :
  NoDup (keys d1) -> NoDup (keys d2) ->
  (forall k, k ∈ keys d1 -> k ∉ keys d2) ->
  dict_merge d1 d2 = d1 ++ d2.
Proof.
  intros H1 H2 Hdis. unfold dict_merge.
  rewrite (dict_update_fresh [] d1) by done. simpl.
  apply dict_update_fresh. unfold keys. rewrite map_app.
  apply NoDup_app. split_and!; done.
Qed.

(** On a key of both, [{**d1, **d2}] holds the value of [d2]. *)
Lemma dict_get_merge k d1 d2 :
  NoDup (keys d1) -> NoDup (keys d2) ->
  dict_get k (dict_merge d1 d2) =
    match dict_get k d2 with Some v => Some v | None => dict_get k d1 end.
Proof.
  intros H1 H2. unfold dict_merge. rewrite !dict_get_update by done.
  simpl. by destruct (dict_get k d2), (dict_get k d1).
Qed.
End DictFacts.

(** ** determine_num_crops *)

Lemma determine_num_crops_merged (dep norm : dict nat ndarray) (w : nat) :
  dict_merge norm dep <> [] -> 0 < w ->
  exists shortest,
    shortest ∈ dict_merge norm dep /\
    (forall x, x ∈ dict_merge norm dep -> shape1 shortest.2 <= shape1 x.2) /\
    determine_num_crops dep norm w = inr (shape1 shortest.2 / w).
Proof.
  intros Hne Hw.
  destruct (py_min_spec (fun x : nat * ndarray => shape1 x.2) _ Hne)
    as (x & Hmin & Hin & Hleast).
  exists x. split_and!; [done | done |].
  unfold determine_num_crops. rewrite Hmin. simpl.
  by rewrite py_floordiv_pos.
Qed.

(** C2, as the code has it: for non-empty class dictionaries with disjoint
    participant ids and a positive crop width, [determine_num_crops] returns
    the floor of the shortest time-axis length over both dictionaries divided
    by the crop width; when the shortest clip is narrower than the crop width
    that value is 0 and it is returned, the call does not fail. *)
Theorem determine_num_crops_floor (dep norm : dict nat ndarray) (w : nat) :
  dict_wf dep -> dict_wf norm -> dep <> [] -> norm <> [] ->
  (forall k, k ∈ keys dep -> k ∉ keys norm) ->
  0 < w ->
  exists shortest,
    shortest ∈ dep ++ norm /\
    (forall x, x ∈ dep ++ norm -> shape1 shortest.2 <= shape1 x.2) /\
    determine_num_crops dep norm w = inr (shape1 shortest.2 / w) /\
    (shape1 shortest.2 < w -> determine_num_crops dep norm w = inr 0).
Proof.
  intros Hd Hn Hdne Hnne Hdis Hw.
  assert (dict_merge norm dep = norm ++ dep) as Hmerge.
  { apply dict_merge_disjoint; [done | done |].
    intros k Hk Hk'. by apply (Hdis k). }
  destruct (determine_num_crops_merged dep norm w) as (x & Hin & Hleast & Hres).
  { rewrite Hmerge. destruct norm; [done | discriminate]. }
  { done. }
  rewrite Hmerge in Hin, Hleast.
  exists x. split_and!.
  - apply elem_of_app. apply elem_of_app in Hin. tauto.
  - intros y Hy. apply Hleast. apply elem_of_app. apply elem_of_app in Hy. tauto.
  - done.
  - intros Hlt. rewrite Hres. by rewrite Nat.div_small.
Qed.

Lemma determine_num_crops_floor_witness :
  exists shortest,
    shortest ∈ scenario_dep ++ scenario_norm /\
    (forall x, x ∈ scenario_dep ++ scenario_norm -> shape1 shortest.2 <= shape1 x.2) /\
    determine_num_crops scenario_dep scenario_norm 125 = inr (shape1 shortest.2 / 125) /\
    (shape1 shortest.2 < 125 ->
     determine_num_crops scenario_dep scenario_norm 125 = inr 0).
Proof.
  apply (determine_num_crops_floor scenario_dep scenario_norm 125).
  - unfold dict_wf. by_decide.
  - unfold dict_wf. by_decide.
  - discriminate.
  - discriminate.
  - apply Forall_forall. by_decide.
  - lia.
Defined.

(** The scenario of the specification: widths 600, 500, 1000 and 400 with a
    crop width of 125 give 3 crops per participant. *)
Example determine_num_crops_scenario :
  determine_num_crops scenario_dep scenario_norm 125 = inr 3.
Proof. vm_compute. reflexivity. Qed.

(** C2 as stated fails: the shortest clip (100 columns) is narrower than the
    crop width (125), and the call returns 0; it neither returns a value of
    at least 1 nor fails. *)
Lemma determine_num_crops_short_clip :
  determine_num_crops short_dep short_norm 125 = inr 0 /\
  ~ ((exists n, determine_num_crops short_dep short_norm 125 = inr n /\ 1 <= n) \/
     (exists e, determine_num_crops short_dep short_norm 125 = inl e)).
Proof.
  assert (determine_num_crops short_dep short_norm 125 = inr 0) as H
    by (vm_compute; reflexivity).
  split; [exact H |]. rewrite H.
  intros [(n & [= <-] & Hn) | (e & [=])]. lia.
Qed.

(** C4, as the code has it: when a participant id is in both class
    dictionaries the call is not rejected. The merge keeps the matrix of the
    depressed dictionary under that id, the matrix of the normal dictionary
    is dropped, and the result is the floor of the shortest width left in the
    merged dictionary divided by the crop width. *)
Theorem determine_num_crops_collision (dep norm : dict nat ndarray) (w k : nat)
    (md mn : ndarray) :
  dict_wf dep -> dict_wf norm ->
  dict_get k dep = Some md -> dict_get k norm = Some mn ->
  0 < w ->
  dict_get k (dict_merge norm dep) = Some md /\
  (forall m, (k, m) ∈ dict_merge norm dep -> m = md) /\
  exists shortest,
    shortest ∈ dict_merge norm dep /\
    (forall x, x ∈ dict_merge norm dep -> shape1 shortest.2 <= shape1 x.2) /\
    determine_num_crops dep norm w = inr (shape1 shortest.2 / w).
Proof.
  intros Hd Hn Hkd Hkn Hw.
  assert (dict_get k (dict_merge norm dep) = Some md) as Hget.
  { rewrite dict_get_merge by done. by rewrite Hkd. }
  split_and!.
  - done.
  - intros m Hm. apply elem_dict_get in Hm; [| apply dict_merge_wf]. congruence.
  - apply determine_num_crops_merged; [| done].
    intros Hnil. by rewrite Hnil in Hget.
Qed.

Lemma determine_num_crops_collision_witness :
  dict_get 7 (dict_merge clash_norm clash_dep) = Some (ramp 0 500) /\
  (forall m, (7, m) ∈ dict_merge clash_norm clash_dep -> m = ramp 0 500) /\
  exists shortest,
    shortest ∈ dict_merge clash_norm clash_dep /\
    (forall x, x ∈ dict_merge clash_norm clash_dep ->
               shape1 shortest.2 <= shape1 x.2) /\
    determine_num_crops clash_dep clash_norm 125 = inr (shape1 shortest.2 / 125).
Proof.
  apply (determine_num_crops_collision clash_dep clash_norm 125 7
           (ramp 0 500) (ramp 0 100)).
  - unfold dict_wf. by_decide.
  - unfold dict_wf. by_decide.
  - reflexivity.
  - reflexivity.
  - lia.
Defined.

(** C4 as stated fails: participant 7 is in both dictionaries, 500 columns
    wide as depressed and 100 as normal; the call returns 500 // 125 = 4 from
    a merged dictionary that holds the depressed entry alone. *)
Lemma determine_num_crops_clash_accepted :
  determine_num_crops clash_dep clash_norm 125 = inr 4 /\
  determine_num_crops clash_dep clash_norm 125 <> inl (PyExc "IdCollisionError") /\
  dict_merge clash_norm clash_dep = [(7, ramp 0 500)].
Proof.
  assert (determine_num_crops clash_dep clash_norm 125 = inr 4) as H
    by (vm_compute; reflexivity).
  split_and!; [exact H | by rewrite H | vm_compute; reflexivity].
Qed.

(** ** Random draws *)

Lemma randbelow_lt n g : 0 < n -> (randbelow n g).1 < n.
Proof.
  intros Hn. destruct g as [|x g]; simpl; [done |].
  apply Nat.mod_upper_bound. lia.
Qed.

(** Overwriting position [j] and putting the old value in front only moves
    values around. *)
Lemma insert_cons_perm {A} (l : list A) (j : nat) (x y : A) :
  l !! j = Some x -> x :: <[j := y]> l ≡ₚ y :: l.
Proof.
  revert j. induction l as [|a l IH]; intros [|j] Hj; simplify_eq/=.
  - apply perm_swap.
  - rewrite perm_swap. rewrite (IH j Hj). apply perm_swap.
Qed.

Lemma swap_perm {A} (i j : nat) (x : list A) : swap i j x ≡ₚ x.
Proof.
  unfold swap. destruct (x !! i) as [a|] eqn:Hi; [|done].
  destruct (x !! j) as [b|] eqn:Hj; [|done].
  destruct (decide (i = j)) as [-> | Hne].
  - rewrite Hi in Hj. injection Hj as <-.
    by rewrite !(list_insert_id x j a Hi).
  - apply (Permutation_cons_inv (a := b)).
    rewrite insert_cons_perm; last by rewrite list_lookup_insert_ne.
    by apply insert_cons_perm.
Qed.

Lemma shuffle_perm {A} (i : nat) (x : list A) (g : rng) : (shuffle i x g).1 ≡ₚ x.
Proof.
  revert x g. induction i as [|i IH]; intros x g; simpl; [done |].
  destruct (randbelow (S (S i)) g) as [j g1]. rewrite IH. apply swap_perm.
Qed.

Lemma np_permutation_perm n g : (np_permutation n g).1 ≡ₚ seq 0 n.
Proof. apply shuffle_perm. Qed.

(** *** [random.sample] *)

(** One step of the pool: the item drawn and the shortened pool make up the
    pool before the step. *)
Lemma pool_step_perm {A} (pool : list A) (m j : nat) (x y : A) :
  j <= m -> pool !! j = Some x -> pool !! m = Some y ->
  x :: take m (<[j := y]> pool) ≡ₚ take (S m) pool.
Proof.
  intros Hj Hx Hy.
  rewrite (take_S_r pool _ y Hy), <- Permutation_cons_append.
  destruct (decide (j = m)) as [-> | Hne].
  - simplify_eq. by rewrite list_insert_id.
  - rewrite take_insert_lt by lia.
    apply insert_cons_perm. rewrite lookup_take_lt by lia. done.
Qed.

Lemma sample_pool_perm {A} (n todo : nat) :
  forall (pool : list A) (i : nat) (g : rng),
    length pool = n -> i + todo <= n ->
    exists r g' rest,
      sample_pool n pool i todo g = inr (r, g') /\
      length r = todo /\
      r ++ rest ≡ₚ take (n - i) pool.
Proof.
  induction todo as [|todo IH]; intros pool i g Hlen Hi; simpl.
  - by exists [], g, (take (n - i) pool).
  - pose proof (randbelow_lt (n - i) g ltac:(lia)) as Hj.
    destruct (randbelow (n - i) g) as [j g1]. simpl in Hj.
    destruct (lookup_lt_is_Some_2 pool j ltac:(lia)) as [x Hx].
    destruct (lookup_lt_is_Some_2 pool (n - i - 1) ltac:(lia)) as [y Hy].
    rewrite Hx, Hy.
    destruct (IH (<[j := y]> pool) (S i) g1) as (r & g' & rest & Hr & Hlr & Hperm);
      [by rewrite length_insert | lia |].
    rewrite Hr. simpl. exists (x :: r), g', rest.
    split_and!; [done | by rewrite <- Hlr |].
    simpl. rewrite Hperm.
    replace (n - i) with (S (n - i - 1)) by lia.
    replace (n - S i) with (n - i - 1) by lia.
    apply pool_step_perm; [lia | done | done].
Qed.

(** The draw looks at positions only: it commutes with [fmap]. *)
Lemma sample_pool_fmap {A B} (f : A -> B) (n todo : nat) :
  forall (pool : list A) (i : nat) (g : rng),
    sample_pool n (f <$> pool) i todo g =
    (r <- sample_pool n pool i todo g ;; ret (f <$> r.1, r.2)).
Proof.
  induction todo as [|todo IH]; intros pool i g; simpl; [done |].
  destruct (randbelow (n - i) g) as [j g1].
  rewrite !list_lookup_fmap.
  destruct (pool !! j) as [x|]; simpl; [|done].
  destruct (pool !! (n - i - 1)) as [y|]; simpl; [|done].
  rewrite <- list_fmap_insert, IH.
  by destruct (sample_pool n (<[j:=y]> pool) (S i) todo g1) as [e|[r g']].
Qed.

(** A sample of [k] items of a population listed by position consists of the
    items at [k] distinct positions. *)
Lemma random_sample_positions {A} (f : nat -> A) (n k : nat) (g : rng) :
  k <= n ->
  exists idxs g',
    random_sample (f <$> seq 0 n) k g = inr (f <$> idxs, g') /\
    length idxs = k /\ NoDup idxs /\ Forall (fun i => i < n) idxs.
Proof.
  intros Hk. unfold random_sample.
  rewrite length_fmap, length_seq.
  destruct (Nat.ltb_spec n k); [lia |].
  rewrite sample_pool_fmap.
  destruct (sample_pool_perm n k (seq 0 n) 0 g) as (r & g' & rest & Hr & Hlr & Hperm);
    [by rewrite length_seq | lia |].
  rewrite Hr. simpl. exists r, g'.
  rewrite Nat.sub_0_r, firstn_all2 in Hperm by (rewrite length_seq; lia).
  split_and!; [done | done | |].
  - assert (NoDup (r ++ rest)) as Hnd by (rewrite Hperm; apply NoDup_seq).
    by apply NoDup_app in Hnd as [Hnd _].
  - apply Forall_forall. intros i Hi.
    assert (i ∈ seq 0 n) as Hin by (rewrite <- Hperm; apply elem_of_app; auto).
    apply elem_of_seq in Hin. lia.
Qed.

Lemma random_sample_oversized {A} (population : list A) (k : nat) (g : rng) :
  length population < k -> random_sample population k g = inl ValueError.
Proof.
  intros Hk. unfold random_sample.
  by destruct (Nat.ltb_spec (length population) k); [| lia].
Qed.

(** Conversely the streams reach every outcome: any [k] distinct positions,
    in any order, are the sample for some stream. *)
Lemma sample_pool_reaches {A} (n todo : nat) :
  forall (pool : list A) (i : nat) (t : list A),
    length pool = n -> i + todo <= n -> length t = todo ->
    NoDup t -> NoDup (take (n - i) pool) ->
    (forall x, x ∈ t -> x ∈ take (n - i) pool) ->
    exists g, sample_pool n pool i todo g = inr (t, []).
Proof.
  induction todo as [|todo IH]; intros pool i t Hlen Hi Ht Hnd Hpool Hin.
  - apply nil_length_inv in Ht as ->. by exists [].
  - destruct t as [|x t]; [done |]. simpl in Ht.
    apply NoDup_cons in Hnd as [Hx Hnd].
    destruct (proj1 (elem_of_take x (n - i) pool)) as (j & Hj & Hlt);
      [apply Hin, list_elem_of_here |].
    destruct (lookup_lt_is_Some_2 pool (n - i - 1) ltac:(lia)) as [y Hy].
    assert (x :: take (n - S i) (<[j := y]> pool) ≡ₚ take (n - i) pool) as Hperm.
    { replace (n - i) with (S (n - i - 1)) by lia.
      replace (n - S i) with (n - i - 1) by lia.
      apply pool_step_perm; [lia | done | done]. }
    destruct (IH (<[j := y]> pool) (S i) t) as [g Hg].
    + by rewrite length_insert.
    + lia.
    + lia.
    + done.
    + rewrite <- Hperm in Hpool. by apply NoDup_cons in Hpool as [_ ?].
    + intros x' Hx'.
      assert (x' ∈ x :: take (n - S i) (<[j := y]> pool)) as Hin'.
      { rewrite Hperm. apply Hin. by apply list_elem_of_further. }
      apply elem_of_cons in Hin' as [-> | ?]; done.
    + exists (j :: g). cbn [sample_pool]. unfold randbelow.
      rewrite Nat.mod_small by done. rewrite Hj, Hy, Hg. done.
Qed.

Lemma NoDup_bounded_length (idxs : list nat) (n : nat) :
  NoDup idxs -> Forall (fun i => i < n) idxs -> length idxs <= n.
Proof.
  intros Hnd Hlt. trans (length (seq 0 n)); [| by rewrite length_seq].
  apply submseteq_length, NoDup_submseteq; [done |].
  intros i Hi. apply elem_of_seq. rewrite Forall_forall in Hlt.
  specialize (Hlt i Hi). lia.
Qed.

Lemma random_sample_reaches {A} (f : nat -> A) (n : nat) (idxs : list nat) :
  NoDup idxs -> Forall (fun i => i < n) idxs ->
  exists g, random_sample (f <$> seq 0 n) (length idxs) g = inr (f <$> idxs, []).
Proof.
  intros Hnd Hlt. pose proof (NoDup_bounded_length idxs n Hnd Hlt) as Hk.
  unfold random_sample. rewrite length_fmap, length_seq.
  destruct (Nat.ltb_spec n (length idxs)); [lia |].
  destruct (sample_pool_reaches n (length idxs) (seq 0 n) 0 idxs) as [g Hg].
  - by rewrite length_seq.
  - lia.
  - done.
  - done.
  - rewrite Nat.sub_0_r, firstn_all2 by (rewrite length_seq; lia). apply NoDup_seq.
  - intros i Hi. rewrite Nat.sub_0_r, firstn_all2 by (rewrite length_seq; lia).
    apply elem_of_seq. rewrite Forall_forall in Hlt. specialize (Hlt i Hi). lia.
  - exists g. rewrite sample_pool_fmap, Hg. done.
Qed.

(** ** [numpy.split] *)

Lemma cut_replicate {A} (s w : nat) (ary : list A) :
  cut ary (replicate s w) = (fun i => take w (drop (i * w) ary)) <$> seq 0 s.
Proof.
  revert ary. induction s as [|s IH]; intros ary; [done |].
  cbn [replicate cut]. rewrite IH.
  change (seq 0 (S s)) with (0 :: seq 1 s).
  rewrite <- fmap_S_seq, fmap_cons, <- list_fmap_compose. f_equal.
  apply list_fmap_ext. intros _ i _. simpl. by rewrite drop_drop.
Qed.

Lemma np_split_even {A} (ary : list A) (s w : nat) :
  0 < s -> length ary = s * w ->
  np_split ary s = inr ((fun i => take w (drop (i * w) ary)) <$> seq 0 s).
Proof.
  intros Hs Hlen. unfold np_split. rewrite py_mod_pos by done. simpl.
  rewrite Hlen, Nat.mul_comm, Nat.Div0.mod_mul. simpl.
  unfold array_split.
  rewrite Hlen, (Nat.mul_comm s w), Nat.Div0.mod_mul, Nat.div_mul by lia.
  simpl. by rewrite Nat.sub_0_r, cut_replicate.
Qed.

Lemma np_split_no_section {A} (ary : list A) :
  np_split ary 0 = inl ZeroDivisionError.
Proof. reflexivity. Qed.

(** ** get_random_samples *)

Lemma bind_ret_r {A} (m : result A) : (x <- m ;; ret x) = m.
Proof. by destruct m. Qed.

(** After the left trim the width is a multiple of the crop width. *)
Lemma clipped_width (L w : nat) : 0 < w -> L - L mod w = L / w * w.
Proof. intros Hw. pose proof (Nat.div_mod_eq L w). lia. Qed.

(** For a positive crop width the function draws from the segments that
    [np.split] makes of the trimmed matrix. *)
Lemma get_random_samples_draw (m : ndarray) (n w : nat) (g : rng) :
  0 < w ->
  get_random_samples m n w g =
    (cropped_sample_ls <- np_split (drop (shape1 m mod w) m) (shape1 m / w) ;;
     random_sample cropped_sample_ls n g).
Proof.
  intros Hw. unfold get_random_samples.
  rewrite py_mod_pos by done. simpl. rewrite slice_from_nat.
  rewrite py_truediv_pos by done. simpl.
  unfold shape1. rewrite length_drop, clipped_width, Nat.div_mul by lia.
  destruct (np_split _ _) as [e|ls]; simpl; [done |]. apply bind_ret_r.
Qed.

Lemma get_random_samples_from_grid (m : ndarray) (n w : nat) (g : rng) :
  0 < w -> w <= shape1 m ->
  get_random_samples m n w g =
    random_sample (grid_crop m w <$> seq 0 (shape1 m / w)) n g.
Proof.
  intros Hw Hm. rewrite get_random_samples_draw by done.
  assert (0 < shape1 m / w) as Hq by (apply Nat.div_str_pos; lia).
  rewrite (np_split_even _ _ w); [| done |].
  - simpl. f_equal. apply list_fmap_ext. intros _ i _.
    unfold grid_crop. by rewrite drop_drop.
  - unfold shape1. by rewrite length_drop, clipped_width.
Qed.

(** Every list of distinct grid positions is the draw for some stream. *)
Lemma get_random_samples_reaches (m : ndarray) (w : nat) (idxs : list nat) :
  0 < w -> w <= shape1 m ->
  NoDup idxs -> Forall (fun i => i < shape1 m / w) idxs ->
  exists g,
    get_random_samples m (length idxs) w g = inr (grid_crop m w <$> idxs, []).
Proof.
  intros Hw Hm Hnd Hlt.
  destruct (random_sample_reaches (grid_crop m w) _ idxs Hnd Hlt) as [g Hg].
  exists g. by rewrite get_random_samples_from_grid.
Qed.

(** Segment [i] lies after the discarded prefix and inside the matrix. *)
Lemma grid_column_in_range (L w i c : nat) :
  0 < w -> i < L / w -> c < w ->
  L mod w <= L mod w + i * w + c < L.
Proof.
  intros Hw Hi Hc. pose proof (Nat.div_mod_eq L w) as Hdiv.
  split; [lia | nia].
Qed.

Lemma grid_crop_column (m : ndarray) (w i c : nat) :
  c < w -> grid_crop m w i !! c = m !! (shape1 m mod w + i * w + c).
Proof.
  intros Hc. unfold grid_crop, ndarray.
  by rewrite lookup_take_lt, lookup_drop.
Qed.

Lemma grid_crop_shape (m : ndarray) (rows w i : nat) :
  0 < w -> i < shape1 m / w -> Forall (fun c => length c = rows) m ->
  has_shape rows w (grid_crop m w i).
Proof.
  intros Hw Hi Hrows. unfold has_shape, grid_crop. split.
  - rewrite length_take, length_drop.
    pose proof (grid_column_in_range (shape1 m) w i (w - 1) Hw Hi ltac:(lia)).
    unfold shape1 in *. lia.
  - by apply Forall_take, Forall_drop.
Qed.

(** C5: for a matrix at least one crop wide and a number of samples not above
    the number of non-overlapping segments, [get_random_samples] returns
    exactly [n_samples] crops; they are the segments at pairwise distinct
    positions [idxs] of the grid that starts after the leading
    [shape1 m mod w] columns; each has shape (frequency_bins, crop_width);
    column [c] of the crop at position [i] is column
    [shape1 m mod w + i * w + c] of the matrix, past the discarded prefix and
    inside the matrix, and crops at different positions share no column. *)
Theorem get_random_samples_grid (m : ndarray) (n_samples w rows : nat) (g : rng) :
  0 < w -> w <= shape1 m -> n_samples <= shape1 m / w ->
  Forall (fun c => length c = rows) m ->
  exists idxs g',
    get_random_samples m n_samples w g = inr (grid_crop m w <$> idxs, g') /\
    length (grid_crop m w <$> idxs) = n_samples /\
    NoDup idxs /\
    Forall (fun i => i < shape1 m / w) idxs /\
    Forall (has_shape rows w) (grid_crop m w <$> idxs) /\
    (forall i c, i ∈ idxs -> c < w ->
       grid_crop m w i !! c = m !! (shape1 m mod w + i * w + c) /\
       shape1 m mod w <= shape1 m mod w + i * w + c < shape1 m) /\
    (forall i j c c', i ∈ idxs -> j ∈ idxs -> i <> j -> c < w -> c' < w ->
       shape1 m mod w + i * w + c <> shape1 m mod w + j * w + c').
Proof.
  intros Hw Hm Hn Hrows.
  rewrite get_random_samples_from_grid by done.
  destruct (random_sample_positions (grid_crop m w) (shape1 m / w) n_samples g Hn)
    as (idxs & g' & Hres & Hlen & Hnd & Hlt).
  exists idxs, g'. rewrite Forall_forall in Hlt.
  split_and!; [done | by rewrite length_fmap | done | by apply Forall_forall | | |].
  - apply Forall_fmap, Forall_forall. intros i Hi.
    apply grid_crop_shape; auto.
  - intros i c Hi Hc. split; [by apply grid_crop_column |].
    apply grid_column_in_range; auto.
  - intros i j c c' _ _ Hij Hc Hc'. nia.
Qed.

Lemma get_random_samples_grid_witness :
  exists idxs g',
    get_random_samples (ramp 0 600) 3 125 [5; 1; 3] = inr (grid_crop (ramp 0 600) 125 <$> idxs, g') /\
    length (grid_crop (ramp 0 600) 125 <$> idxs) = 3 /\
    NoDup idxs /\
    Forall (fun i => i < shape1 (ramp 0 600) / 125) idxs /\
    Forall (has_shape 1 125) (grid_crop (ramp 0 600) 125 <$> idxs) /\
    (forall i c, i ∈ idxs -> c < 125 ->
       grid_crop (ramp 0 600) 125 i !! c
         = ramp 0 600 !! (shape1 (ramp 0 600) mod 125 + i * 125 + c) /\
       shape1 (ramp 0 600) mod 125 <= shape1 (ramp 0 600) mod 125 + i * 125 + c
         < shape1 (ramp 0 600)) /\
    (forall i j c c', i ∈ idxs -> j ∈ idxs -> i <> j -> c < 125 -> c' < 125 ->
       shape1 (ramp 0 600) mod 125 + i * 125 + c
         <> shape1 (ramp 0 600) mod 125 + j * 125 + c').
Proof.
  apply (get_random_samples_grid (ramp 0 600) 3 125 1 [5; 1; 3]).
  - lia.
  - vm_compute. lia.
  - by_decide.
  - by_decide.
Defined.

(** C6, as the code has it: when [n_samples] exceeds the number of
    non-overlapping segments, [get_random_samples] fails and returns no
    crops: with the [ValueError] of [random.sample], or, when the matrix is
    narrower than one crop and there is no segment at all, with the
    [ZeroDivisionError] of [np.split]. *)
Theorem get_random_samples_too_many (m : ndarray) (n_samples w : nat) (g : rng) :
  0 < w -> shape1 m / w < n_samples ->
  get_random_samples m n_samples w g =
    inl (if shape1 m <? w then ZeroDivisionError else ValueError).
Proof.
  intros Hw Hn. destruct (Nat.ltb_spec (shape1 m) w) as [Hlt | Hge].
  - rewrite get_random_samples_draw by done.
    by rewrite (Nat.div_small _ _ Hlt).
  - rewrite get_random_samples_from_grid by done.
    apply random_sample_oversized. by rewrite length_fmap, length_seq.
Qed.

Lemma get_random_samples_too_many_witness :
  get_random_samples (ramp 0 250) 3 125 [5; 1; 3] =
    inl (if shape1 (ramp 0 250) <? 125 then ZeroDivisionError else ValueError).
Proof.
  apply (get_random_samples_too_many (ramp 0 250) 3 125 [5; 1; 3]).
  - lia.
  - by_decide.
Defined.

(** C6 as stated fails on the kind of error: asking for 3 crops of a matrix
    with 2 segments raises the [ValueError] of [random.sample], not a
    [SampleSizeError]. *)
Lemma get_random_samples_value_error :
  get_random_samples (ramp 0 250) 3 125 [5; 1; 3] = inl (PyExc "ValueError") /\
  get_random_samples (ramp 0 250) 3 125 [5; 1; 3] <> inl (PyExc "SampleSizeError").
Proof.
  assert (get_random_samples (ramp 0 250) 3 125 [5; 1; 3] = inl (PyExc "ValueError"))
    as H by (vm_compute; reflexivity).
  split; [exact H | by rewrite H].
Qed.

(** *** [numpy.random.choice] without replacement *)

Lemma Forall2_perm_l {A B} (R : A -> B -> Prop) (l1 l2 : list A) (k1 : list B) :
  l1 ≡ₚ l2 -> Forall2 R l1 k1 -> exists k2, Forall2 R l2 k2 /\ k1 ≡ₚ k2.
Proof.
  intros Hperm. revert k1.
  induction Hperm as [|x l l' _ IH|x y l|l l' l'' _ IH1 _ IH2]; intros k1 HF.
  - apply Forall2_nil_inv_l in HF as ->. by exists [].
  - apply Forall2_cons_inv_l in HF as (b & k & Hb & Hk & ->).
    destruct (IH k Hk) as (k2 & HF2 & Hp). exists (b :: k2).
    split; [by constructor | by constructor].
  - apply Forall2_cons_inv_l in HF as (b & k & Hb & Hk & ->).
    apply Forall2_cons_inv_l in Hk as (b' & k' & Hb' & Hk' & ->).
    exists (b' :: b :: k'). split; [by repeat constructor | apply perm_swap].
  - destruct (IH1 k1 HF) as (k2 & HF2 & Hp).
    destruct (IH2 k2 HF2) as (k3 & HF3 & Hp').
    exists k3. split; [done | by etrans].
Qed.

Lemma lookup_positions {A} (a : list A) :
  Forall2 (fun i y => a !! i = Some y) (seq 0 (length a)) a.
Proof.
  apply Forall2_same_length_lookup_2; [by rewrite length_seq |].
  intros i x y Hx Hy. apply lookup_seq in Hx as [-> _]. done.
Qed.

(** The choice succeeds when [size] is at most the population; what it picks,
    together with what it leaves, is the population up to order. *)
Lemma np_random_choice_spec {A} (a : list A) (size : nat) (g : rng) :
  size <= length a ->
  exists chosen g' rest,
    np_random_choice a size g = inr (chosen, g') /\
    length chosen = size /\
    chosen ++ rest ≡ₚ a.
Proof.
  intros Hsize. unfold np_random_choice.
  destruct (Nat.ltb_spec (length a) size); [lia |].
  pose proof (np_permutation_perm (length a) g) as Hperm.
  destruct (np_permutation (length a) g) as [perm g1]. simpl in Hperm.
  symmetry in Hperm.
  destruct (Forall2_perm_l _ _ _ _ Hperm (lookup_positions a)) as (full & HF & Hfull).
  assert (mapM (fun i => a !! i) (take size perm) = Some (take size full)) as ->.
  { apply mapM_Some. by apply Forall2_take. }
  exists (take size full), g1, (drop size full).
  split_and!; [done | | by rewrite take_drop].
  rewrite length_take. apply Permutation_length in Hfull. lia.
Qed.


(** The streams reach every permutation, hence every choice of distinct
    positions. *)
Lemma swap_take {A} (n i j : nat) (x : list A) :
  i < n -> j < n -> take n (swap i j x) = swap i j (take n x).
Proof.
  intros Hi Hj. unfold swap. rewrite !lookup_take_lt by done.
  destruct (x !! i) as [a|]; [|done]. destruct (x !! j) as [b|]; [|done].
  by rewrite !take_insert_lt.
Qed.

Lemma swap_drop {A} (n i j : nat) (x : list A) :
  i < n -> j < n -> drop n (swap i j x) = drop n x.
Proof.
  intros Hi Hj. unfold swap.
  destruct (x !! i) as [a|]; [|done]. destruct (x !! j) as [b|]; [|done].
  by rewrite !drop_insert_lt.
Qed.

Lemma swap_lookup_l {A} (i j : nat) (x : list A) (a b : A) :
  x !! i = Some a -> x !! j = Some b -> swap i j x !! i = Some b.
Proof.
  intros Hi Hj. unfold swap. rewrite Hi, Hj.
  pose proof (lookup_lt_Some _ _ _ Hi). pose proof (lookup_lt_Some _ _ _ Hj).
  destruct (decide (i = j)) as [-> | Hne].
  - simplify_eq. rewrite list_lookup_insert_eq; [done | by rewrite length_insert].
  - rewrite list_lookup_insert_ne by done. by rewrite list_lookup_insert_eq.
Qed.

Lemma swap_length {A} (i j : nat) (x : list A) : length (swap i j x) = length x.
Proof.
  unfold swap. destruct (x !! i); [|done]. destruct (x !! j); [|done].
  by rewrite !length_insert.
Qed.

Lemma shuffle_reaches {A} (i : nat) :
  forall x p : list A,
    length x = length p -> i < length x ->
    drop (S i) x = drop (S i) p -> take (S i) x ≡ₚ take (S i) p ->
    exists g, shuffle i x g = (p, []).
Proof.
  induction i as [|i IH]; intros x p Hlen Hi Hdrop Htake.
  - exists []. simpl. f_equal.
    rewrite <- (take_drop 1 x), <- (take_drop 1 p), Hdrop. f_equal.
    destruct x as [|a x], p as [|b p]; simpl in *; try lia.
    by apply Permutation_singleton_r in Htake.
  - destruct (lookup_lt_is_Some_2 p (S i) ltac:(lia)) as [b Hb].
    destruct (lookup_lt_is_Some_2 x (S i) ltac:(lia)) as [a Ha].
    assert (b ∈ take (S (S i)) x) as Hin.
    { rewrite Htake. apply elem_of_take. exists (S i). split; [done | lia]. }
    apply elem_of_take in Hin as (j & Hj & Hlt).
    pose proof (swap_lookup_l (S i) j x a b Ha Hj) as Hx'.
    destruct (IH (swap (S i) j x) p) as [g Hg].
    + by rewrite swap_length.
    + rewrite swap_length. lia.
    + rewrite (drop_S _ _ _ Hx'), (drop_S _ _ _ Hb).
      rewrite swap_drop by lia. by rewrite Hdrop.
    + apply (Permutation_app_inv_r [b]).
      rewrite <- (take_S_r _ _ _ Hx'), <- (take_S_r _ _ _ Hb).
      rewrite swap_take by lia. by rewrite swap_perm.
    + exists (j :: g). cbn [shuffle]. unfold randbelow.
      rewrite Nat.mod_small by done. done.
Qed.

Lemma np_permutation_reaches (n : nat) (p : list nat) :
  p ≡ₚ seq 0 n -> exists g, np_permutation n g = (p, []).
Proof.
  intros Hp. pose proof (Permutation_length Hp) as Hlen.
  rewrite length_seq in Hlen. unfold np_permutation.
  destruct n as [|n].
  - apply nil_length_inv in Hlen as ->. by exists [].
  - apply shuffle_reaches.
    + by rewrite length_seq.
    + rewrite length_seq. lia.
    + rewrite !drop_ge; [done | lia | rewrite length_seq; lia].
    + replace (S (S n - 1)) with (S n) by lia.
      rewrite !take_ge; [done | lia | rewrite length_seq; lia].
Qed.

(** Every choice of distinct positions is the outcome for some stream. *)
Lemma np_random_choice_reaches {A} (a : list A) (idx : list nat) :
  NoDup idx -> Forall (fun i => i < length a) idx ->
  exists g chosen,
    np_random_choice a (length idx) g = inr (chosen, []) /\
    Forall2 (fun i y => a !! i = Some y) idx chosen.
Proof.
  intros Hnd Hlt. pose proof (NoDup_bounded_length idx _ Hnd Hlt) as Hk.
  rewrite Forall_forall in Hlt.
  set (p := idx ++ filter (fun i => i ∉ idx) (seq 0 (length a))).
  assert (p ≡ₚ seq 0 (length a)) as Hp.
  { apply NoDup_Permutation; [| apply NoDup_seq |].
    - apply NoDup_app. split_and!; [done | | apply NoDup_filter, NoDup_seq].
      intros i Hi Hi'. by apply list_elem_of_filter in Hi' as [? _].
    - intros i. unfold p. rewrite elem_of_app, list_elem_of_filter, elem_of_seq.
      split.
      + intros [Hi | [_ Hi]]; [specialize (Hlt i Hi) |]; lia.
      + intros Hi. destruct (decide (i ∈ idx)); [by left | by right]. }
  destruct (np_permutation_reaches _ _ Hp) as [g Hg].
  destruct (mapM_is_Some_2 (fun i => a !! i) idx) as [chosen Hchosen].
  { apply Forall_forall. intros i Hi. by apply lookup_lt_is_Some_2, Hlt. }
  exists g, chosen. split; [| by apply mapM_Some_1].
  unfold np_random_choice. destruct (Nat.ltb_spec (length a) (length idx)); [lia |].
  rewrite Hg. unfold p. by rewrite take_app_length, Hchosen.
Qed.

(** ** rand_samp_train_test_split *)

Lemma np_load_listed (dir : directory) (f : string) :
  f ∈ listdir dir -> np_load dir f = inr (crops_of dir f).
Proof.
  intros Hf. unfold np_load, crops_of.
  destruct (dict_get f dir) as [data|] eqn:Hget; [done |].
  by apply dict_get_None in Hget.
Qed.

Lemma append_crops_listed (dir : directory) (files : list string)
    (samples : list ndarray) :
  Forall (fun f => f ∈ listdir dir) files ->
  append_crops dir files samples = inr (samples ++ crops_of_all dir files).
Proof.
  intros Hfiles. revert samples.
  induction Hfiles as [|f files Hf _ IH]; intros samples; simpl.
  - unfold crops_of_all. simpl. by rewrite app_nil_r.
  - rewrite np_load_listed by done. simpl. rewrite IH.
    unfold crops_of_all. simpl. by rewrite app_assoc.
Qed.

Lemma crops_of_all_app (dir : directory) (l1 l2 : list string) :
  crops_of_all dir (l1 ++ l2) = crops_of_all dir l1 ++ crops_of_all dir l2.
Proof. unfold crops_of_all. by rewrite fmap_app, concat_app. Qed.

Lemma dep_samps_listed (dir : directory) (f : string) :
  f ∈ dep_samps dir -> f ∈ listdir dir /\ startswith f "D" = true.
Proof.
  unfold dep_samps. rewrite list_elem_of_filter. intros [HD Hf].
  split; [done | by apply Is_true_eq_true].
Qed.

Lemma norm_samps_listed (dir : directory) (f : string) :
  f ∈ norm_samps dir -> f ∈ listdir dir /\ startswith f "N" = true.
Proof.
  unfold norm_samps. rewrite list_elem_of_filter. intros [HN Hf].
  split; [done | by apply Is_true_eq_true].
Qed.

(** No name starts with both class prefixes. *)
Lemma class_prefixes_exclusive (f : string) :
  startswith f "D" = true -> startswith f "N" = true -> False.
Proof.
  unfold startswith. destruct f as [|c f]; [done |].
  cbn [String.prefix].
  destruct (ascii_dec "D" c) as [<- | ?]; [| done].
  intros _. by destruct (ascii_dec "N" "D").
Qed.

Lemma chosen_subset {A} (chosen rest a : list A) (x : A) :
  chosen ++ rest ≡ₚ a -> x ∈ chosen -> x ∈ a.
Proof. intros <- Hx. apply elem_of_app. by left. Qed.

Lemma slice_to_subset {A} (b : Z) (xs : list A) (x : A) :
  x ∈ slice_to b xs -> x ∈ xs.
Proof. apply subseteq_take. Qed.

Lemma slice_from_subset {A} (b : Z) (xs : list A) (x : A) :
  x ∈ slice_from b xs -> x ∈ xs.
Proof. apply subseteq_drop. Qed.

(** *** Stacking *)

Lemma np_array_inr (samples stacked : list ndarray) :
  np_array samples = inr stacked -> stacked = samples.
Proof.
  destruct samples as [|first others]; simpl; [by intros [= <-] |].
  case_bool_decide; [by intros [= <-] | discriminate].
Qed.

Lemma has_shape_shape (rows w : nat) (m : ndarray) :
  has_shape rows w m -> shape m = (match w with 0 => 0 | S _ => rows end, w).
Proof.
  intros [Hw Hrows]. destruct m as [|c m]; simpl in Hw; subst w; [done |].
  unfold shape. by rewrite (Forall_inv Hrows).
Qed.

(** Matrices of one shape are stacked. *)
Lemma np_array_uniform (rows w : nat) (samples : list ndarray) :
  Forall (has_shape rows w) samples -> np_array samples = inr samples.
Proof.
  intros Hall. destruct samples as [|first others]; [done |].
  apply Forall_cons in Hall as [Hfirst Hothers]. simpl.
  rewrite bool_decide_eq_true_2; [done |].
  eapply Forall_impl; [exact Hothers |].
  intros m Hm. simpl. by rewrite (has_shape_shape _ _ _ Hm), (has_shape_shape _ _ _ Hfirst).
Qed.

Lemma crops_of_Forall (Q : ndarray -> Prop) (dir : directory) (f : string) :
  Forall (fun file => Forall Q file.2) dir -> Forall Q (crops_of dir f).
Proof.
  unfold crops_of. induction 1 as [|[k v] dir Hv _ IH]; simpl; [constructor |].
  by destruct (decide (f = k)).
Qed.

(** Where every persisted crop has the property [Q], so has every crop that
    the loops read. *)
Lemma crops_of_all_shaped (Q : ndarray -> Prop) (dir : directory)
    (files : list string) :
  Forall (fun file => Forall Q file.2) dir -> Forall Q (crops_of_all dir files).
Proof.
  intros HQ. unfold crops_of_all. induction files as [|f files IH]; [constructor |].
  rewrite fmap_cons. simpl. apply Forall_app. split; [| done].
  by apply crops_of_Forall.
Qed.

(** Every run gets as far as the return statement: both selections succeed,
    each picks [max_samples] participants of its class, every archive they
    name is in the directory, and what remains is to stack the crops of the
    split of the two selections. *)
Lemma rand_samp_train_test_split_run (dir : directory) (g : rng) :
  exists dsel nsel g1 g2 rest_d rest_n,
    np_random_choice (dep_samps dir) (max_samples dir) g = inr (dsel, g1) /\
    np_random_choice (norm_samps dir) (max_samples dir) g1 = inr (nsel, g2) /\
    length dsel = max_samples dir /\ length nsel = max_samples dir /\
    dsel ++ rest_d ≡ₚ dep_samps dir /\ nsel ++ rest_n ≡ₚ norm_samps dir /\
    rand_samp_train_test_split dir g =
      (_ <- np_array (train_samples (split_of dir dsel nsel)) ;;
       _ <- np_array (test_samples (split_of dir dsel nsel)) ;;
       ret (split_of dir dsel nsel, g2)).
Proof.
  destruct (np_random_choice_spec (dep_samps dir) (max_samples dir) g)
    as (dsel & g1 & rest_d & Hd & Hld & Hpd); [apply Nat.le_min_l |].
  destruct (np_random_choice_spec (norm_samps dir) (max_samples dir) g1)
    as (nsel & g2 & rest_n & Hn & Hln & Hpn); [apply Nat.le_min_r |].
  exists dsel, nsel, g1, g2, rest_d, rest_n.
  split_and!; try done.
  assert (forall b, Forall (fun f => f ∈ listdir dir) (slice_to b dsel)) as Htd.
  { intros b. apply Forall_forall. intros f Hf%slice_to_subset.
    by apply dep_samps_listed, (chosen_subset dsel rest_d). }
  assert (forall b, Forall (fun f => f ∈ listdir dir) (slice_from b dsel)) as Hfd.
  { intros b. apply Forall_forall. intros f Hf%slice_from_subset.
    by apply dep_samps_listed, (chosen_subset dsel rest_d). }
  assert (forall b, Forall (fun f => f ∈ listdir dir) (slice_to b nsel)) as Htn.
  { intros b. apply Forall_forall. intros f Hf%slice_to_subset.
    by apply norm_samps_listed, (chosen_subset nsel rest_n). }
  assert (forall b, Forall (fun f => f ∈ listdir dir) (slice_from b nsel)) as Hfn.
  { intros b. apply Forall_forall. intros f Hf%slice_from_subset.
    by apply norm_samps_listed, (chosen_subset nsel rest_n). }
  unfold rand_samp_train_test_split.
  fold (max_samples dir). rewrite Hd. simpl. rewrite Hn. simpl.
  rewrite !append_crops_listed by done. simpl.
  rewrite !append_crops_listed by done. simpl.
  unfold split_of, train_participants, test_participants. simpl.
  rewrite !crops_of_all_app.
  destruct (np_array _) as [e | train] eqn:Htrain; [done |].
  apply np_array_inr in Htrain as ->. simpl.
  destruct (np_array _) as [e | test] eqn:Htest; [done |].
  by apply np_array_inr in Htest as ->.
Qed.

(** A run that returns has stacked the crops of the split of its two
    selections. *)
Lemma rand_samp_train_test_split_returned (dir : directory) (g g' : rng)
    (r : split) :
  rand_samp_train_test_split dir g = inr (r, g') ->
  exists dsel nsel g1 g2 rest_d rest_n,
    np_random_choice (dep_samps dir) (max_samples dir) g = inr (dsel, g1) /\
    np_random_choice (norm_samps dir) (max_samples dir) g1 = inr (nsel, g2) /\
    length dsel = max_samples dir /\ length nsel = max_samples dir /\
    dsel ++ rest_d ≡ₚ dep_samps dir /\ nsel ++ rest_n ≡ₚ norm_samps dir /\
    rand_samp_train_test_split dir g = inr (split_of dir dsel nsel, g2).
Proof.
  intros Hrun.
  destruct (rand_samp_train_test_split_run dir g)
    as (dsel & nsel & g1 & g2 & rest_d & rest_n
        & Hd & Hn & Hld & Hln & Hpd & Hpn & Hres).
  exists dsel, nsel, g1, g2, rest_d, rest_n. split_and!; try done.
  rewrite Hres in Hrun |- *.
  destruct (np_array (train_samples (split_of dir dsel nsel))); [done |].
  by destruct (np_array (test_samples (split_of dir dsel nsel))).
Qed.

(** Where all the persisted crops have one shape the run returns. *)
Lemma rand_samp_train_test_split_uniform (dir : directory) (g : rng)
    (rows w : nat) :
  Forall (fun file => Forall (has_shape rows w) file.2) dir ->
  exists dsel nsel g1 g2 rest_d rest_n,
    np_random_choice (dep_samps dir) (max_samples dir) g = inr (dsel, g1) /\
    np_random_choice (norm_samps dir) (max_samples dir) g1 = inr (nsel, g2) /\
    length dsel = max_samples dir /\ length nsel = max_samples dir /\
    dsel ++ rest_d ≡ₚ dep_samps dir /\ nsel ++ rest_n ≡ₚ norm_samps dir /\
    rand_samp_train_test_split dir g = inr (split_of dir dsel nsel, g2).
Proof.
  intros Hshape.
  destruct (rand_samp_train_test_split_run dir g)
    as (dsel & nsel & g1 & g2 & rest_d & rest_n
        & Hd & Hn & Hld & Hln & Hpd & Hpn & Hres).
  exists dsel, nsel, g1, g2, rest_d, rest_n. split_and!; try done.
  rewrite Hres. unfold split_of. simpl.
  by rewrite !(np_array_uniform rows w) by by apply crops_of_all_shaped.
Qed.

(** *** Labels *)

Lemma count_label_replicate_same (v : Z) (n : nat) :
  count_label v (replicate n v) = n.
Proof.
  unfold count_label. induction n as [|n IH]; [done |].
  simpl. rewrite filter_cons_True by done. simpl. by rewrite IH.
Qed.

Lemma count_label_replicate_other (v v' : Z) (n : nat) :
  v' <> v -> count_label v (replicate n v') = 0.
Proof.
  intros Hne. unfold count_label. induction n as [|n IH]; [done |].
  simpl. by rewrite filter_cons_False.
Qed.

Lemma count_label_app (v : Z) (l1 l2 : list Z) :
  count_label v (l1 ++ l2) = count_label v l1 + count_label v l2.
Proof. unfold count_label. by rewrite filter_app, length_app. Qed.

Lemma make_labels_count (samples : list ndarray) :
  count_label 1 (make_labels samples) = length samples / 2 /\
  count_label 0 (make_labels samples) = length samples / 2.
Proof.
  unfold make_labels. rewrite !count_label_app.
  rewrite !count_label_replicate_same.
  rewrite !count_label_replicate_other by done. lia.
Qed.

(** C8: in every run that returns, the train labels hold as many 1s as 0s,
    and so do the test labels. *)
Theorem split_labels_balanced (dir : directory) (g g' : rng) (r : split) :
  rand_samp_train_test_split dir g = inr (r, g') ->
  count_label 1 (train_labels r) = count_label 0 (train_labels r) /\
  count_label 1 (test_labels r) = count_label 0 (test_labels r).
Proof.
  intros Hrun.
  destruct (rand_samp_train_test_split_returned dir g g' r Hrun)
    as (dsel & nsel & g1 & g2 & _ & _ & _ & _ & _ & _ & _ & _ & Hres).
  rewrite Hres in Hrun. injection Hrun as <- _. simpl.
  split.
  - destruct (make_labels_count
                (crops_of_all dir (train_participants dsel nsel))) as [-> ->].
    done.
  - destruct (make_labels_count
                (crops_of_all dir (test_participants dsel nsel))) as [-> ->].
    done.
Qed.

Lemma split_labels_balanced_witness :
  exists r g',
    rand_samp_train_test_split scenario_store draws = inr (r, g') /\
    count_label 1 (train_labels r) = count_label 0 (train_labels r) /\
    count_label 1 (test_labels r) = count_label 0 (test_labels r).
Proof.
  eexists _, _. split.
  - vm_compute. reflexivity.
  - eapply (split_labels_balanced scenario_store draws).
    vm_compute. reflexivity.
Defined.

(** *** Participants *)

Lemma chosen_NoDup {A} (chosen rest a : list A) :
  NoDup a -> chosen ++ rest ≡ₚ a -> NoDup chosen.
Proof. intros Hnd Hperm. rewrite <- Hperm in Hnd. by apply NoDup_app in Hnd as [? _]. Qed.

Lemma slices_disjoint {A} (b : Z) (xs : list A) (x : A) :
  NoDup xs -> x ∈ slice_to b xs -> x ∉ slice_from b xs.
Proof.
  intros Hnd. rewrite <- (slice_to_from b xs) in Hnd.
  apply NoDup_app in Hnd as (_ & Hdis & _). apply Hdis.
Qed.

Lemma NoDup_fmap_inj_on {A B} (f : A -> B) (l : list A) (x y : A) :
  NoDup (f <$> l) -> x ∈ l -> y ∈ l -> f x = f y -> x = y.
Proof.
  induction l as [|a l IH]; intros Hnd Hx Hy Hxy; [by apply elem_of_nil in Hx |].
  rewrite fmap_cons in Hnd. apply NoDup_cons in Hnd as [Ha Hnd].
  apply elem_of_cons in Hx as [-> | Hx]; apply elem_of_cons in Hy as [-> | Hy].
  - done.
  - destruct Ha. rewrite Hxy. by apply list_elem_of_fmap_2.
  - destruct Ha. rewrite <- Hxy. by apply list_elem_of_fmap_2.
  - by apply IH.
Qed.

(** C9, with the condition it needs: where the archives of the directory
    belong to different participants, in every run that returns the train
    samples are the crops of the archives the train loops read, the test
    samples those of the archives the test loops read, and no participant
    has an archive on both sides.  [pid] names the participant of an archive
    (the archive itself, or the id in its name). *)
Theorem train_test_participants_disjoint {P : Type} (pid : string -> P)
    (dir : directory) (g g' : rng) (r : split) :
  NoDup (pid <$> listdir dir) ->
  rand_samp_train_test_split dir g = inr (r, g') ->
  exists dsel nsel g1,
    np_random_choice (dep_samps dir) (max_samples dir) g = inr (dsel, g1) /\
    np_random_choice (norm_samps dir) (max_samples dir) g1 = inr (nsel, g') /\
    train_samples r = crops_of_all dir (train_participants dsel nsel) /\
    test_samples r = crops_of_all dir (test_participants dsel nsel) /\
    (forall f f', f ∈ train_participants dsel nsel ->
                  f' ∈ test_participants dsel nsel -> pid f <> pid f').
Proof.
  intros Hpid Hrun. pose proof (NoDup_fmap_1 _ _ Hpid) as Hnd.
  destruct (rand_samp_train_test_split_returned dir g g' r Hrun)
    as (dsel & nsel & g1 & g2 & rest_d & rest_n & Hd & Hn & _ & _ & Hpd & Hpn & Hres).
  rewrite Hres in Hrun. injection Hrun as <- <-.
  exists dsel, nsel, g1. split_and!; [done | done | done | done |].
  assert (NoDup dsel) as Hnd_d.
  { eapply chosen_NoDup; [| exact Hpd]. by apply NoDup_filter. }
  assert (NoDup nsel) as Hnd_n.
  { eapply chosen_NoDup; [| exact Hpn]. by apply NoDup_filter. }
  assert (forall f, f ∈ dsel -> f ∈ listdir dir /\ startswith f "D" = true) as HD.
  { intros f Hf. by apply dep_samps_listed, (chosen_subset dsel rest_d). }
  assert (forall f, f ∈ nsel -> f ∈ listdir dir /\ startswith f "N" = true) as HN.
  { intros f Hf. by apply norm_samps_listed, (chosen_subset nsel rest_n). }
  assert (forall f, f ∈ train_participants dsel nsel -> f ∈ listdir dir) as Htl.
  { unfold train_participants. intros f [Hf | Hf]%elem_of_app.
    - by apply HD, (slice_to_subset _ _ _ Hf).
    - by apply HN, (slice_to_subset _ _ _ Hf). }
  assert (forall f, f ∈ test_participants dsel nsel -> f ∈ listdir dir) as Hsl.
  { unfold test_participants. intros f [Hf | Hf]%elem_of_app.
    - by apply HD, (slice_from_subset _ _ _ Hf).
    - by apply HN, (slice_from_subset _ _ _ Hf). }
  intros f f' Htrain Htest Heq.
  assert (f = f') as <- by (apply (NoDup_fmap_inj_on pid (listdir dir)); auto).
  unfold train_participants, test_participants in Htrain, Htest.
  apply elem_of_app in Htrain as [Htrain | Htrain];
    apply elem_of_app in Htest as [Htest | Htest].
  - by eapply slices_disjoint; [exact Hnd_d | exact Htrain |].
  - apply (class_prefixes_exclusive f).
    + by apply HD, (slice_to_subset _ _ _ Htrain).
    + by apply HN, (slice_from_subset _ _ _ Htest).
  - apply (class_prefixes_exclusive f).
    + by apply HD, (slice_from_subset _ _ _ Htest).
    + by apply HN, (slice_to_subset _ _ _ Htrain).
  - by eapply slices_disjoint; [exact Hnd_n | exact Htrain |].
Qed.

Lemma train_test_participants_disjoint_witness :
  exists r g' dsel nsel g1,
    rand_samp_train_test_split scenario_store draws = inr (r, g') /\
    np_random_choice (dep_samps scenario_store) (max_samples scenario_store) draws
      = inr (dsel, g1) /\
    np_random_choice (norm_samps scenario_store) (max_samples scenario_store) g1
      = inr (nsel, g') /\
    train_samples r = crops_of_all scenario_store (train_participants dsel nsel) /\
    test_samples r = crops_of_all scenario_store (test_participants dsel nsel) /\
    (forall f f', f ∈ train_participants dsel nsel ->
                  f' ∈ test_participants dsel nsel ->
                  participant_id f <> participant_id f').
Proof.
  assert (exists r g', rand_samp_train_test_split scenario_store draws = inr (r, g'))
    as (r & g' & Hrun) by (eexists _, _; vm_compute; reflexivity).
  assert (NoDup (participant_id <$> listdir scenario_store)) as Hpid by by_decide.
  destruct (train_test_participants_disjoint participant_id scenario_store
              draws g' r Hpid Hrun) as (dsel & nsel & g1 & H).
  exists r, g', dsel, nsel, g1. split; [exact Hrun | exact H].
Defined.

(** C9, as stated for every run: nothing keeps a participant from being
    persisted under both class prefixes, and the two selections are drawn
    apart.  On [shared_id_store] the run returns, the train loops read
    D5.npz and the test loops read N5.npz, so the crops of participant 5 are
    among the train samples and among the test samples. *)
Lemma shared_id_in_train_and_test :
  exists r g' dsel nsel g1,
    rand_samp_train_test_split shared_id_store draws = inr (r, g') /\
    np_random_choice (dep_samps shared_id_store) (max_samples shared_id_store)
      draws = inr (dsel, g1) /\
    np_random_choice (norm_samps shared_id_store) (max_samples shared_id_store)
      g1 = inr (nsel, g') /\
    train_samples r = crops_of_all shared_id_store (train_participants dsel nsel) /\
    test_samples r = crops_of_all shared_id_store (test_participants dsel nsel) /\
    NoDup (listdir shared_id_store) /\
    "D5.npz" ∈ train_participants dsel nsel /\
    "N5.npz" ∈ test_participants dsel nsel /\
    participant_id "D5.npz" = participant_id "N5.npz" /\
    crops_of shared_id_store "D5.npz" = [crop1 5] /\
    crops_of shared_id_store "N5.npz" = [crop1 15] /\
    crop1 5 ∈ train_samples r /\
    crop1 15 ∈ test_samples r.
Proof.
  eexists _, _, _, _, _. split_and!.
  - vm_compute. reflexivity.
  - vm_compute. reflexivity.
  - vm_compute. reflexivity.
  - vm_compute. reflexivity.
  - vm_compute. reflexivity.
  - by_decide.
  - by_decide.
  - by_decide.
  - reflexivity.
  - reflexivity.
  - reflexivity.
  - by_decide.
  - by_decide.
Qed.

(** *** The number of test participants *)


(** The binary64 product truncates to the floor of a fifth, checked for
    every count below 2048. *)
Lemma int_mul_test_size_floor (n : nat) : n < 2048 -> int_mul_test_size n = n / 5.
Proof.
  intros Hn.
  assert (forallb (fun k => int_mul_test_size k =? k / 5) (seq 0 2048) = true)
    as Hall by (vm_compute; reflexivity).
  rewrite forallb_forall in Hall. apply Nat.eqb_eq, Hall, in_seq. lia.
Qed.

(** With at least one test participant the slices cut each selection at
    [max_samples - num_test]. *)
Lemma participants_partition (dsel nsel : list string) :
  length nsel = length dsel ->
  0 < int_mul_test_size (length dsel) ->
  let num_test := int_mul_test_size (length dsel) in
  train_participants dsel nsel
    = take (length dsel - num_test) dsel ++ take (length dsel - num_test) nsel /\
  test_participants dsel nsel
    = drop (length dsel - num_test) dsel ++ drop (length dsel - num_test) nsel.
Proof.
  intros Hlen Hpos. unfold train_participants, test_participants. simpl.
  by rewrite !slice_to_neg_pos, !slice_from_neg_pos, Hlen.
Qed.





(** C7, as the code has it: when a class has no persisted participant, so
    that [max_samples] is 0, the call does not fail; it returns empty train
    and test samples with empty label arrays. *)
Theorem empty_class_gives_empty_split (dir : directory) (g : rng) :
  dep_samps dir = [] \/ norm_samps dir = [] ->
  max_samples dir = 0 /\
  exists g',
    rand_samp_train_test_split dir g =
      inr ({| train_samples := []; train_labels := [];
              test_samples := []; test_labels := [] |}, g').
Proof.
  intros Hempty.
  assert (max_samples dir = 0) as Hmax.
  { unfold max_samples. destruct Hempty as [-> | ->]; simpl; lia. }
  split; [done |].
  destruct (rand_samp_train_test_split_run dir g)
    as (dsel & nsel & g1 & g2 & _ & _ & _ & _ & Hld & Hln & _ & _ & Hres).
  rewrite Hmax in Hld, Hln.
  apply nil_length_inv in Hld as ->. apply nil_length_inv in Hln as ->.
  exists g2. rewrite Hres. reflexivity.
Qed.

Lemma empty_class_gives_empty_split_witness :
  max_samples normal_only_store = 0 /\
  exists g',
    rand_samp_train_test_split normal_only_store draws =
      inr ({| train_samples := []; train_labels := [];
              test_samples := []; test_labels := [] |}, g').
Proof.
  apply (empty_class_gives_empty_split normal_only_store draws).
  left. vm_compute. reflexivity.
Defined.

(** C7 as stated fails: a store without depressed participants is answered
    with four empty arrays, not with an [EmptyClassError]. *)
Lemma empty_class_no_error :
  rand_samp_train_test_split normal_only_store draws =
    inr ({| train_samples := []; train_labels := [];
            test_samples := []; test_labels := [] |}, drop 1 draws) /\
  rand_samp_train_test_split normal_only_store draws
    <> inl (PyExc "EmptyClassError").
Proof.
  assert (rand_samp_train_test_split normal_only_store draws =
            inr ({| train_samples := []; train_labels := [];
                    test_samples := []; test_labels := [] |}, drop 1 draws)) as H
    by (vm_compute; reflexivity).
  split; [exact H | by rewrite H].
Qed.

(** C1 at a store of one depressed and one normal participant:
    [max_samples] is 1 and [num_test] is [int(1 * 0.2) = 0], so the train
    partition should hold the first [1 - 0] selected participant of each
    class and the test partition none. The slices [[:-0]] and [[-0:]] of the
    code give the opposite: no train sample, and both participants' crops in
    the test samples. *)
Theorem tiny_store_train_empty :
  max_samples tiny_store = 1 /\
  int_mul_test_size (max_samples tiny_store) = 0 /\
  np_random_choice (dep_samps tiny_store) 1 draws = inr (["D301.npz"], draws) /\
  np_random_choice (norm_samps tiny_store) 1 draws = inr (["N302.npz"], draws) /\
  rand_samp_train_test_split tiny_store draws =
    inr ({| train_samples := []; train_labels := [];
            test_samples := [crop1 1; crop1 2]; test_labels := [1%Z; 0%Z] |},
         draws) /\
  crops_of_all tiny_store (take (1 - 0) ["D301.npz"] ++ take (1 - 0) ["N302.npz"])
    = [crop1 1; crop1 2] /\
  crops_of_all tiny_store (drop (1 - 0) ["D301.npz"] ++ drop (1 - 0) ["N302.npz"])
    = [].
Proof. split_and!; vm_compute; reflexivity. Qed.

(** From five participants per class on (and for every count checked
    above) the partitions are those of C1: [num_test] is the floor of a
    fifth of [max_samples], train reads the first [max_samples - num_test]
    selected participants of each class, test the remaining [num_test],
    depressed first, every crop of each, where the persisted crops have one
    shape and so can be stacked. *)
Lemma partition_from_five (dir : directory) (g : rng) (rows w : nat) :
  Forall (fun file => Forall (has_shape rows w) file.2) dir ->
  5 <= max_samples dir < 2048 ->
  let num_test := max_samples dir / 5 in
  let n_train := max_samples dir - num_test in
  exists dsel nsel g1 g2,
    np_random_choice (dep_samps dir) (max_samples dir) g = inr (dsel, g1) /\
    np_random_choice (norm_samps dir) (max_samples dir) g1 = inr (nsel, g2) /\
    length dsel = max_samples dir /\ length nsel = max_samples dir /\
    int_mul_test_size (length dsel) = num_test /\
    length (drop n_train dsel) = num_test /\
    length (drop n_train nsel) = num_test /\
    rand_samp_train_test_split dir g =
      inr ({| train_samples :=
                crops_of_all dir (take n_train dsel ++ take n_train nsel);
              train_labels :=
                make_labels
                  (crops_of_all dir (take n_train dsel ++ take n_train nsel));
              test_samples :=
                crops_of_all dir (drop n_train dsel ++ drop n_train nsel);
              test_labels :=
                make_labels
                  (crops_of_all dir (drop n_train dsel ++ drop n_train nsel)) |},
           g2).
Proof.
  intros Hshape [Hfive Hmax] num_test n_train.
  destruct (rand_samp_train_test_split_uniform dir g rows w Hshape)
    as (dsel & nsel & g1 & g2 & _ & _ & Hd & Hn & Hld & Hln & _ & _ & Hres).
  assert (int_mul_test_size (length dsel) = num_test) as Hk.
  { rewrite Hld. by apply int_mul_test_size_floor. }
  assert (0 < num_test) as Hpos by (apply Nat.div_str_pos; lia).
  assert (num_test <= max_samples dir) as Hle by (apply Nat.Div0.div_le_upper_bound; lia).
  exists dsel, nsel, g1, g2.
  split_and!; [done | done | done | done | done | | |].
  - rewrite length_drop. lia.
  - rewrite length_drop. lia.
  - rewrite Hres. unfold split_of.
    destruct (participants_partition dsel nsel) as [-> ->]; [lia | lia |].
    rewrite Hk, Hld. done.
Qed.

(** ** The script *)

Example participant_id_D300 : participant_id "D300.npz" = "300".
Proof. reflexivity. Qed.

(** The scenario of the specification, persisted: each of the four
    participants gets an archive of 3 crops of 125 columns. *)
Example create_sample_dicts_scenario :
  exists dir g',
    create_sample_dicts (scenario_dep, scenario_norm) 125 draws [] = inr (dir, g') /\
    listdir dir = ["D1.npz"; "D2.npz"; "N3.npz"; "N4.npz"] /\
    Forall (fun file => length file.2 = 3 /\ Forall (has_shape 1 125) file.2) dir.
Proof.
  eexists _, _. split; [vm_compute; reflexivity |].
  split; [reflexivity | by_decide].
Qed.

(** C3 on a corpus of one depressed and one normal participant of two
    segments each: two runs with the same seed of [np.random.seed] and the
    same corpus that differ only in the state of the standard library's
    generator, which the seed does not set and [random.sample] draws from,
    return the crops of the depressed participant in different orders, so
    the test samples differ. *)
Theorem main_not_reproducible (np_seed : nat -> rng) :
  let d0 := grid_crop (ramp 0 250) 125 0 in
  let d1 := grid_crop (ramp 0 250) 125 1 in
  let n0 := grid_crop (ramp 1000 250) 125 0 in
  let n1 := grid_crop (ramp 1000 250) 125 1 in
  main np_seed [0] two_clip_corpus [] =
    inr {| train_samples := []; train_labels := [];
           test_samples := [d0; d1; n0; n1];
           test_labels := [1%Z; 1%Z; 0%Z; 0%Z] |} /\
  main np_seed [1] two_clip_corpus [] =
    inr {| train_samples := []; train_labels := [];
           test_samples := [d1; d0; n0; n1];
           test_labels := [1%Z; 1%Z; 0%Z; 0%Z] |} /\
  main np_seed [0] two_clip_corpus [] <> main np_seed [1] two_clip_corpus [].
Proof.
  intros d0 d1 n0 n1.
  assert (main np_seed [0] two_clip_corpus [] =
            inr {| train_samples := []; train_labels := [];
                   test_samples := [d0; d1; n0; n1];
                   test_labels := [1%Z; 1%Z; 0%Z; 0%Z] |}) as H0
    by (vm_compute; reflexivity).
  assert (main np_seed [1] two_clip_corpus [] =
            inr {| train_samples := []; train_labels := [];
                   test_samples := [d1; d0; n0; n1];
                   test_labels := [1%Z; 1%Z; 0%Z; 0%Z] |}) as H1
    by (vm_compute; reflexivity).
  split_and!; [exact H0 | exact H1 |].
  rewrite H0, H1. intros [=].
Qed.

(** * Further properties *)

(** ** determine_num_crops: how it fails *)
Lemma dict_set_not_nil {K V} `{EqDecision K} (k : K) (v : V) (d : dict K V) :
  dict_set k v d <> [].
Proof. destruct d as [|[k' v'] d]; simpl; [done |]. by destruct (decide (k = k')). Qed.

Lemma dict_update_nil {K V} `{EqDecision K} (d items : dict K V) :
  dict_update d items = [] <-> d = [] /\ items = [].
Proof.
  revert d. induction items as [|[k v] items IH]; intros d; simpl.
  - split; [by intros -> | by intros [-> _]].
  - rewrite IH. split; [| by intros [_ ?]].
    intros [Hset _]. by apply dict_set_not_nil in Hset.
Qed.

Lemma dict_merge_nil {K V} `{EqDecision K} (d1 d2 : dict K V) :
  dict_merge d1 d2 = [] <-> d1 = [] /\ d2 = [].
Proof.
  unfold dict_merge. rewrite !dict_update_nil.
  split; [intros [[_ ?] ?] | intros [? ?]]; done.
Qed.

(** X1: [determine_num_crops] fails in exactly two ways: with the
    [ValueError] of [min] when both dictionaries are empty, whatever the
    crop width, and with [ZeroDivisionError] when there is a participant and
    the crop width is 0. *)
Theorem determine_num_crops_errors (dep norm : dict nat ndarray) (w : nat)
    (e : exception) :
  determine_num_crops dep norm w = inl e <->
    (dep = [] /\ norm = [] /\ e = ValueError) \/
    ((dep <> [] \/ norm <> []) /\ w = 0 /\ e = ZeroDivisionError).
Proof.
  unfold determine_num_crops.
  destruct (dict_merge norm dep) as [|x xs] eqn:Hm.
  - apply dict_merge_nil in Hm as [-> ->]. simpl. split.
    + intros [= <-]. by left.
    + intros [(_ & _ & ->) | ([? | ?] & _)]; done.
  - assert (dep <> [] \/ norm <> []) as Hne.
    { destruct dep; [| by left]. destruct norm; [| by right].
      by vm_compute in Hm. }
    simpl. unfold py_floordiv. destruct (Nat.eqb_spec w 0) as [-> | Hw]; simpl.
    + split.
      * intros [= <-]. by right.
      * intros [(-> & -> & _) | (_ & _ & ->)]; [by destruct Hne | done].
    + split; [done |].
      intros [(-> & -> & _) | (_ & ? & _)]; [by destruct Hne | done].
Qed.

(** ** get_random_samples: every outcome *)
Lemma get_random_samples_no_width (m : ndarray) (n : nat) (g : rng) :
  get_random_samples m n 0 g = inl ZeroDivisionError.
Proof. reflexivity. Qed.

Lemma get_random_samples_narrow (m : ndarray) (n w : nat) (g : rng) :
  0 < w -> shape1 m < w -> get_random_samples m n w g = inl ZeroDivisionError.
Proof.
  intros Hw Hlt. rewrite get_random_samples_draw by done.
  by rewrite (Nat.div_small _ _ Hlt).
Qed.

Lemma get_random_samples_oversized (m : ndarray) (n w : nat) (g : rng) :
  0 < w -> w <= shape1 m -> shape1 m / w < n ->
  get_random_samples m n w g = inl ValueError.
Proof.
  intros Hw Hm Hn. rewrite get_random_samples_from_grid by done.
  apply random_sample_oversized. by rewrite length_fmap, length_seq.
Qed.

Lemma get_random_samples_sampled (m : ndarray) (n w : nat) (g : rng) :
  0 < w -> w <= shape1 m -> n <= shape1 m / w ->
  exists crops g',
    get_random_samples m n w g = inr (crops, g') /\ sampled_from m n w crops.
Proof.
  intros Hw Hm Hn. rewrite get_random_samples_from_grid by done.
  destruct (random_sample_positions (grid_crop m w) (shape1 m / w) n g Hn)
    as (idxs & g' & Hres & Hlen & Hnd & Hlt).
  exists (grid_crop m w <$> idxs), g'. split; [done |]. by exists idxs.
Qed.

(** *** The grid tiles the trimmed matrix *)



(** X3: [get_random_samples] fails in exactly two ways: with
    [ZeroDivisionError] when the crop width is 0 or the matrix is narrower
    than one crop, even if no sample is asked for, and with the [ValueError]
    of [random.sample] when the matrix is at least one crop wide and more
    samples are asked for than it has segments. *)
Theorem get_random_samples_errors (m : ndarray) (n w : nat) (g : rng)
    (e : exception) :
  get_random_samples m n w g = inl e <->
    ((w = 0 \/ shape1 m < w) /\ e = ZeroDivisionError) \/
    (0 < w /\ w <= shape1 m /\ shape1 m / w < n /\ e = ValueError).
Proof.
  destruct (Nat.eq_dec w 0) as [-> | Hw].
  - rewrite get_random_samples_no_width. split.
    + intros [= <-]. left. split; [by left | done].
    + intros [[_ ->] | (? & _)]; [done | lia].
  - destruct (Nat.lt_ge_cases (shape1 m) w) as [Hlt | Hge].
    + rewrite get_random_samples_narrow by lia. split.
      * intros [= <-]. left. split; [by right | done].
      * intros [[_ ->] | (_ & ? & _)]; [done | lia].
    + destruct (Nat.lt_ge_cases (shape1 m / w) n) as [Hn | Hn].
      * rewrite get_random_samples_oversized by lia. split.
        -- intros [= <-]. right. split_and!; [lia | done | done | done].
        -- intros [[[? | ?] _] | (_ & _ & _ & ->)]; [lia | lia | done].
      * destruct (get_random_samples_sampled m n w g) as (crops & g' & -> & _);
          [lia | done | done |].
        split; [done |]. intros [[[? | ?] _] | (_ & _ & ? & _)]; lia.
Qed.



(** ** build_class_sample_dict *)

Lemma build_class_sample_loop_ok (n w : nat) (items : list (nat * ndarray)) :
  0 < w -> Forall (enough_segments n w) items ->
  forall (acc : dict nat (list ndarray)) (g : rng),
  exists sampled g',
    build_class_sample_loop items n w acc g = inr (dict_update acc sampled, g') /\
    Forall2 (sampled_item n w) items sampled.
Proof.
  intros Hw Hall. induction Hall as [|[k m] items [Hm Hn] _ IH]; intros acc g.
  - exists [], g. by split.
  - simpl in Hm, Hn.
    destruct (get_random_samples_sampled m n w g Hw Hm Hn)
      as (crops & g1 & Hres & Hcrops).
    destruct (IH (dict_set k crops acc) g1) as (sampled & g' & Hloop & HF).
    exists ((k, crops) :: sampled), g'. cbn [build_class_sample_loop].
    rewrite Hres. simpl. rewrite Hloop. split; [done |].
    constructor; [by split | done].
Qed.

Lemma sampled_items_keys (n w : nat) (items : list (nat * ndarray))
    (sampled : list (nat * list ndarray)) :
  Forall2 (sampled_item n w) items sampled -> keys sampled = keys items.
Proof.
  induction 1 as [|[k m] [k' v] items sampled [Hk _] _ IH]; [done |].
  simpl in *. by rewrite Hk, IH.
Qed.

Lemma build_class_sample_loop_fresh (d : dict nat ndarray) (n w : nat) (g : rng) :
  dict_wf d -> 0 < w -> Forall (enough_segments n w) d ->
  exists samples g',
    build_class_sample_loop d n w [] g = inr (samples, g') /\
    Forall2 (sampled_item n w) d samples.
Proof.
  intros Hwf Hw Hall.
  destruct (build_class_sample_loop_ok n w d Hw Hall [] g)
    as (sampled & g' & Hloop & HF).
  exists sampled, g'. split; [| done]. rewrite Hloop.
  rewrite dict_update_fresh; [done |]. simpl.
  by rewrite (sampled_items_keys _ _ _ _ HF).
Qed.

(** X5: when every matrix of a class dictionary is at least one crop wide
    and has at least [n] segments, [build_class_sample_dict] returns a
    dictionary with the same participants in the same order, each with [n]
    segments of its own matrix at pairwise distinct grid positions. *)
Theorem build_class_sample_dict_ok (d : dict nat ndarray) (n w : nat) (g : rng) :
  dict_wf d -> 0 < w -> Forall (enough_segments n w) d ->
  exists samples g',
    build_class_sample_dict d n w g = inr (samples, g') /\
    keys samples = keys d /\
    Forall2 (sampled_item n w) d samples.
Proof.
  intros Hwf Hw Hall. unfold build_class_sample_dict.
  destruct (build_class_sample_loop_fresh d n w g Hwf Hw Hall)
    as (samples & g' & Hloop & HF).
  exists samples, g'. split_and!; [done | | done].
  by apply (sampled_items_keys n w).
Qed.

Lemma build_class_sample_dict_ok_witness :
  exists samples g',
    build_class_sample_dict scenario_dep 3 125 draws = inr (samples, g') /\
    keys samples = keys scenario_dep /\
    Forall2 (sampled_item 3 125) scenario_dep samples.
Proof.
  apply (build_class_sample_dict_ok scenario_dep 3 125 draws).
  - unfold dict_wf. by_decide.
  - lia.
  - unfold enough_segments. by_decide.
Defined.

Lemma get_random_samples_fails (m : ndarray) (n w : nat) (g : rng) :
  0 < w -> ~ enough_segments n w (0, m) ->
  exists e, get_random_samples m n w g = inl e /\
            (e = ValueError \/ e = ZeroDivisionError).
Proof.
  intros Hw Hbad. unfold enough_segments in Hbad. simpl in Hbad.
  destruct (Nat.lt_ge_cases (shape1 m) w) as [Hlt | Hge].
  - exists ZeroDivisionError. split; [by apply get_random_samples_narrow | by right].
  - exists ValueError. split; [| by left].
    apply get_random_samples_oversized; [done | done | lia].
Qed.

(** X6: when some matrix of the class dictionary is narrower than one crop
    or has fewer than [n] segments, [build_class_sample_dict] fails as a
    whole, with the [ValueError] or the [ZeroDivisionError] of the first
    such participant; no partial dictionary is returned. *)
Theorem build_class_sample_dict_fails (d : dict nat ndarray) (n w : nat) (g : rng) :
  0 < w -> Exists (fun item => ~ enough_segments n w item) d ->
  exists e, build_class_sample_dict d n w g = inl e /\
            (e = ValueError \/ e = ZeroDivisionError).
Proof.
  intros Hw Hex. unfold build_class_sample_dict. generalize (@nil (nat * list ndarray)).
  revert g. induction d as [|[k m] d IH]; intros g acc.
  - by apply Exists_nil in Hex.
  - cbn [build_class_sample_loop].
    destruct (decide (w <= shape1 m /\ n <= shape1 m / w)) as [[Hm Hn] | Hbad].
    + destruct (get_random_samples_sampled m n w g Hw Hm Hn)
        as (crops & g1 & -> & _). simpl.
      apply IH. apply Exists_cons in Hex as [Hhd | Htl]; [| done].
      destruct Hhd. by split.
    + destruct (get_random_samples_fails m n w g Hw Hbad) as (e & -> & He).
      by exists e.
Qed.

Lemma build_class_sample_dict_fails_witness :
  exists e, build_class_sample_dict scenario_norm 4 125 draws = inl e /\
            (e = ValueError \/ e = ZeroDivisionError).
Proof.
  apply (build_class_sample_dict_fails scenario_norm 4 125 draws).
  - lia.
  - unfold enough_segments. by_decide.
Defined.

(** ** Archive names *)

Lemma string_length_app (s t : string) :
  String.length (s +:+ t) = String.length s + String.length t.
Proof. induction s as [|c s IH]; simpl; [done | by rewrite IH]. Qed.

Lemma string_app_cons (c : ascii) (s t : string) :
  String c s +:+ t = String c (s +:+ t).
Proof. reflexivity. Qed.

Lemma string_app_inj_r (t s1 s2 : string) : s1 +:+ t = s2 +:+ t -> s1 = s2.
Proof.
  revert s2. induction s1 as [|c s1 IH]; intros [|c' s2] Heq.
  - done.
  - apply (f_equal String.length) in Heq.
    rewrite !string_length_app in Heq. simpl in Heq. lia.
  - apply (f_equal String.length) in Heq.
    rewrite !string_length_app in Heq. simpl in Heq. lia.
  - rewrite !string_app_cons in Heq. injection Heq as -> Heq.
    f_equal. by apply IH.
Qed.

Lemma archive_name_inj (class_prefix : string) (k k' : nat) :
  archive_name class_prefix k = archive_name class_prefix k' -> k = k'.
Proof.
  unfold archive_name. intros Heq%(inj (String.app class_prefix)).
  by apply string_app_inj_r, (inj pretty) in Heq.
Qed.

Lemma prefix_empty (s : string) : String.prefix "" s = true.
Proof. by destruct s. Qed.

Lemma archive_name_D (k : nat) :
  startswith (archive_name "D" k) "D" = true /\
  startswith (archive_name "D" k) "N" = false.
Proof.
  unfold startswith, archive_name. rewrite string_app_cons.
  cbn [String.prefix]. split.
  - destruct (ascii_dec "D" "D"); [apply prefix_empty | done].
  - by destruct (ascii_dec "N" "D").
Qed.

Lemma archive_name_N (k : nat) :
  startswith (archive_name "N" k) "N" = true /\
  startswith (archive_name "N" k) "D" = false.
Proof.
  unfold startswith, archive_name. rewrite string_app_cons.
  cbn [String.prefix]. split.
  - destruct (ascii_dec "N" "N"); [apply prefix_empty | done].
  - by destruct (ascii_dec "D" "N").
Qed.

Lemma archive_name_classes (k k' : nat) : archive_name "D" k <> archive_name "N" k'.
Proof. unfold archive_name. rewrite !string_app_cons. by intros [=]. Qed.

(** ** The archives of a class *)

Lemma save_class_update (class_prefix : string)
    (samples : dict nat (list ndarray)) (dir : directory) :
  save_class class_prefix samples dir
  = dict_update dir (archive_items class_prefix samples).
Proof.
  unfold save_class, dict_update, archive_items, np_savez. revert dir.
  induction samples as [|[k v] samples IH]; intros dir; simpl; [done |].
  by rewrite IH.
Qed.

Lemma keys_archive_items (class_prefix : string) (samples : dict nat (list ndarray)) :
  keys (archive_items class_prefix samples) = archive_name class_prefix <$> keys samples.
Proof.
  unfold keys, archive_items. rewrite <- !list_fmap_compose.
  by apply list_fmap_ext.
Qed.

Lemma archive_items_wf (class_prefix : string) (samples : dict nat (list ndarray)) :
  NoDup (keys samples) -> NoDup (keys (archive_items class_prefix samples)).
Proof.
  intros Hnd. rewrite keys_archive_items.
  apply NoDup_fmap_2_strong; [| done].
  intros k k' _ _. apply archive_name_inj.
Qed.

Lemma dict_get_archive_items (class_prefix : string) (k : nat)
    (samples : dict nat (list ndarray)) :
  dict_get (archive_name class_prefix k) (archive_items class_prefix samples)
  = dict_get k samples.
Proof.
  induction samples as [|[k' v] samples IH]; simpl; [done |].
  destruct (decide (k = k')) as [-> | Hne].
  - by rewrite decide_True.
  - rewrite decide_False; [done |]. by intros ?%archive_name_inj.
Qed.

(** ** determine_num_crops: the largest count every clip can give *)

Lemma determine_num_crops_disjoint (dep norm : dict nat ndarray) (w : nat) :
  dict_wf dep -> dict_wf norm ->
  (forall k, k ∈ keys dep -> k ∉ keys norm) ->
  0 < w -> dep ++ norm <> [] ->
  exists x,
    x ∈ dep ++ norm /\
    (forall y, y ∈ dep ++ norm -> shape1 x.2 <= shape1 y.2) /\
    determine_num_crops dep norm w = inr (shape1 x.2 / w).
Proof.
  intros Hd Hn Hdis Hw Hne.
  assert (dict_merge norm dep = norm ++ dep) as Hmerge.
  { apply dict_merge_disjoint; [done | done |].
    intros k Hk Hk'. by apply (Hdis k). }
  destruct (determine_num_crops_merged dep norm w) as (x & Hin & Hleast & Hres).
  { rewrite Hmerge. intros [-> ->]%app_eq_nil. done. }
  { done. }
  rewrite Hmerge in Hin, Hleast.
  exists x. split_and!; [| | done].
  - apply elem_of_app. apply elem_of_app in Hin. tauto.
  - intros y Hy. apply Hleast. apply elem_of_app. apply elem_of_app in Hy. tauto.
Qed.

(** X2: for dictionaries with disjoint ids, a positive crop width and at
    least one participant, the number [determine_num_crops] returns is the
    largest number of crops every clip can give: no participant has fewer
    segments, and some participant has exactly that many. *)
Theorem determine_num_crops_maximal (dep norm : dict nat ndarray) (w : nat) :
  dict_wf dep -> dict_wf norm ->
  (forall k, k ∈ keys dep -> k ∉ keys norm) ->
  0 < w -> dep ++ norm <> [] ->
  exists n,
    determine_num_crops dep norm w = inr n /\
    (forall item, item ∈ dep ++ norm -> n <= shape1 item.2 / w) /\
    (exists item, item ∈ dep ++ norm /\ shape1 item.2 / w = n).
Proof.
  intros Hd Hn Hdis Hw Hne.
  destruct (determine_num_crops_disjoint dep norm w Hd Hn Hdis Hw Hne)
    as (x & Hin & Hleast & Hres).
  exists (shape1 x.2 / w). split_and!; [done | |].
  - intros item Hitem. by apply Nat.Div0.div_le_mono, Hleast.
  - by exists x.
Qed.

Lemma determine_num_crops_maximal_witness :
  exists n,
    determine_num_crops scenario_dep scenario_norm 125 = inr n /\
    (forall item, item ∈ scenario_dep ++ scenario_norm ->
                  n <= shape1 item.2 / 125) /\
    (exists item, item ∈ scenario_dep ++ scenario_norm /\
                  shape1 item.2 / 125 = n).
Proof.
  apply (determine_num_crops_maximal scenario_dep scenario_norm 125).
  - unfold dict_wf. by_decide.
  - unfold dict_wf. by_decide.
  - apply Forall_forall. by_decide.
  - lia.
  - vm_compute. discriminate.
Defined.

(** ** create_sample_dicts *)

Lemma create_sample_dicts_result (dep norm : dict nat ndarray) (w : nat)
    (g : rng) (processed : directory) :
  valid_corpus dep norm w ->
  exists n ds ns g',
    determine_num_crops dep norm w = inr n /\ 1 <= n /\
    keys ds = keys dep /\ keys ns = keys norm /\
    Forall2 (sampled_item n w) dep ds /\
    Forall2 (sampled_item n w) norm ns /\
    create_sample_dicts (dep, norm) w g processed
      = inr (save_class "N" ns (save_class "D" ds processed), g').
Proof.
  intros (Hd & Hn & Hdis & Hw & Hne & Hwide).
  destruct (determine_num_crops_disjoint dep norm w Hd Hn Hdis Hw Hne)
    as (x & Hx & Hleast & Hdet).
  set (n := shape1 x.2 / w) in *.
  rewrite Forall_forall in Hwide.
  assert (1 <= n) as Hn1.
  { apply Nat.div_le_lower_bound; [lia |]. specialize (Hwide x Hx). lia. }
  assert (Forall (enough_segments n w) (dep ++ norm)) as Hall.
  { apply Forall_forall. intros item Hitem.
    split; [by apply Hwide | by apply Nat.Div0.div_le_mono, Hleast]. }
  apply Forall_app in Hall as [Hall_d Hall_n].
  destruct (build_class_sample_loop_fresh dep n w g Hd Hw Hall_d)
    as (ds & g1 & Hds & HFd).
  destruct (build_class_sample_loop_fresh norm n w g1 Hn Hw Hall_n)
    as (ns & g2 & Hns & HFn).
  exists n, ds, ns, g2.
  split_and!; [done | done | by apply (sampled_items_keys n w)
              | by apply (sampled_items_keys n w) | done | done |].
  unfold create_sample_dicts, build_class_sample_dict.
  rewrite Hdet. simpl. rewrite Hds. simpl. by rewrite Hns.
Qed.

Lemma sampled_items_lookup (n w : nat) (items : list (nat * ndarray))
    (sampled : list (nat * list ndarray)) (k : nat) (m : ndarray) :
  Forall2 (sampled_item n w) items sampled -> (k, m) ∈ items ->
  exists crops, (k, crops) ∈ sampled /\ sampled_from m n w crops.
Proof.
  induction 1 as [|[k0 m0] [k' v] items sampled [Hk Hs] _ IH]; intros Hin.
  - by apply elem_of_nil in Hin.
  - simpl in Hk, Hs. subst k'.
    apply elem_of_cons in Hin as [[= -> ->] | Hin].
    + exists v. split; [apply list_elem_of_here | done].
    + destruct (IH Hin) as (crops & Hc & Hsf).
      exists crops. split; [by apply list_elem_of_further | done].
Qed.

Lemma dict_get_other_class (p q : string) (k : nat)
    (samples : dict nat (list ndarray)) :
  (forall k', archive_name p k <> archive_name q k') ->
  dict_get (archive_name p k) (archive_items q samples) = None.
Proof.
  intros Hne. apply dict_get_None. rewrite keys_archive_items.
  intros (k' & Heq & _)%list_elem_of_fmap. by apply (Hne k').
Qed.

Lemma np_load_found (dir : directory) (name : string) (data : npz) :
  dict_get name dir = Some data -> np_load dir name = inr data.
Proof. intros H. unfold np_load. by rewrite H. Qed.

(** X7: on a valid corpus [create_sample_dicts] succeeds with a number of
    crops of at least 1; afterwards the archive [D<id>.npz] of every
    depressed participant and [N<id>.npz] of every normal participant loads
    as that number of segments of the participant's own matrix, at distinct
    grid positions, and every file under another name is as it was. *)
Theorem create_sample_dicts_archives (dep norm : dict nat ndarray) (w : nat)
    (g : rng) (processed : directory) :
  valid_corpus dep norm w ->
  exists n dir g',
    determine_num_crops dep norm w = inr n /\ 1 <= n /\
    create_sample_dicts (dep, norm) w g processed = inr (dir, g') /\
    (forall k m, (k, m) ∈ dep ->
       exists crops, np_load dir (archive_name "D" k) = inr crops /\
                     sampled_from m n w crops) /\
    (forall k m, (k, m) ∈ norm ->
       exists crops, np_load dir (archive_name "N" k) = inr crops /\
                     sampled_from m n w crops) /\
    (forall name,
       name ∉ (archive_name "D" <$> keys dep) ->
       name ∉ (archive_name "N" <$> keys norm) ->
       dict_get name dir = dict_get name processed).
Proof.
  intros Hvalid.
  destruct (create_sample_dicts_result dep norm w g processed Hvalid)
    as (n & ds & ns & g' & Hdet & Hn1 & Hkd & Hkn & HFd & HFn & Hres).
  destruct Hvalid as (Hd & Hn & _).
  assert (NoDup (keys ds)) as Hwd by by rewrite Hkd.
  assert (NoDup (keys ns)) as Hwn by by rewrite Hkn.
  assert (forall name,
            dict_get name (save_class "N" ns (save_class "D" ds processed)) =
            match dict_get name (archive_items "N" ns) with
            | Some v => Some v
            | None => match dict_get name (archive_items "D" ds) with
                      | Some v => Some v
                      | None => dict_get name processed
                      end
            end) as Hget.
  { intros name. rewrite !save_class_update.
    by rewrite !dict_get_update by by apply archive_items_wf. }
  exists n, (save_class "N" ns (save_class "D" ds processed)), g'.
  split_and!; [done | done | done | | |].
  - intros k m Hin.
    destruct (sampled_items_lookup _ _ _ _ _ _ HFd Hin) as (crops & Hc & Hsf).
    exists crops. split; [| done]. apply np_load_found. rewrite Hget.
    rewrite dict_get_other_class by apply archive_name_classes.
    rewrite dict_get_archive_items. by rewrite (elem_dict_get _ _ _ Hwd Hc).
  - intros k m Hin.
    destruct (sampled_items_lookup _ _ _ _ _ _ HFn Hin) as (crops & Hc & Hsf).
    exists crops. split; [| done]. apply np_load_found. rewrite Hget.
    rewrite dict_get_archive_items. by rewrite (elem_dict_get _ _ _ Hwn Hc).
  - intros name HD HN. rewrite Hget.
    rewrite <- Hkd, <- keys_archive_items in HD.
    rewrite <- Hkn, <- keys_archive_items in HN.
    apply dict_get_None in HD, HN. by rewrite HD, HN.
Qed.

Lemma create_sample_dicts_archives_witness :
  exists n dir g',
    determine_num_crops scenario_dep scenario_norm 125 = inr n /\ 1 <= n /\
    create_sample_dicts (scenario_dep, scenario_norm) 125 draws tiny_store
      = inr (dir, g') /\
    (forall k m, (k, m) ∈ scenario_dep ->
       exists crops, np_load dir (archive_name "D" k) = inr crops /\
                     sampled_from m n 125 crops) /\
    (forall k m, (k, m) ∈ scenario_norm ->
       exists crops, np_load dir (archive_name "N" k) = inr crops /\
                     sampled_from m n 125 crops) /\
    (forall name,
       name ∉ (archive_name "D" <$> keys scenario_dep) ->
       name ∉ (archive_name "N" <$> keys scenario_norm) ->
       dict_get name dir = dict_get name tiny_store).
Proof.
  apply (create_sample_dicts_archives scenario_dep scenario_norm 125 draws
           tiny_store).
  valid_corpus_by_evaluation.
Defined.

(** *** A clip narrower than the crop width *)

Lemma build_class_sample_loop_no_sample (w : nat) (items : list (nat * ndarray)) :
  0 < w ->
  forall (acc : dict nat (list ndarray)) (g : rng),
    (Forall (fun item => w <= shape1 item.2) items /\
     exists r, build_class_sample_loop items 0 w acc g = inr r) \/
    (Exists (fun item => shape1 item.2 < w) items /\
     build_class_sample_loop items 0 w acc g = inl ZeroDivisionError).
Proof.
  intros Hw. induction items as [|[k m] items IH]; intros acc g.
  - left. split; [constructor | by eexists].
  - cbn [build_class_sample_loop].
    destruct (Nat.lt_ge_cases (shape1 m) w) as [Hlt | Hge].
    + right. split; [by left |].
      by rewrite get_random_samples_narrow.
    + destruct (get_random_samples_sampled m 0 w g Hw Hge ltac:(lia))
        as (crops & g1 & -> & _). simpl.
      destruct (IH (dict_set k crops acc) g1) as [[Hall Hr] | [Hex Hr]].
      * left. split; [by constructor | done].
      * right. split; [by right | done].
Qed.

(** X8: when some clip is narrower than the crop width (ids disjoint, crop
    width positive), [determine_num_crops] returns 0 and
    [create_sample_dicts] then fails with the [ZeroDivisionError] of
    [np.split] before anything is saved. *)
Theorem create_sample_dicts_short_clip (dep norm : dict nat ndarray) (w : nat)
    (g : rng) (processed : directory) :
  dict_wf dep -> dict_wf norm ->
  (forall k, k ∈ keys dep -> k ∉ keys norm) ->
  0 < w ->
  Exists (fun item => shape1 item.2 < w) (dep ++ norm) ->
  determine_num_crops dep norm w = inr 0 /\
  create_sample_dicts (dep, norm) w g processed = inl ZeroDivisionError.
Proof.
  intros Hd Hn Hdis Hw Hex.
  assert (dep ++ norm <> []) as Hne by (intros Hnil; rewrite Hnil in Hex; by apply Exists_nil in Hex).
  destruct (determine_num_crops_disjoint dep norm w Hd Hn Hdis Hw Hne)
    as (x & Hx & Hleast & Hdet).
  assert (shape1 x.2 / w = 0) as Hzero.
  { apply Exists_exists in Hex as (y & Hy & Hlt).
    apply Nat.div_small. specialize (Hleast y Hy). lia. }
  rewrite Hzero in Hdet. split; [done |].
  unfold create_sample_dicts, build_class_sample_dict. rewrite Hdet. simpl.
  destruct (build_class_sample_loop_no_sample w dep Hw [] g)
    as [[Hall_d [[ds g1] ->]] | [_ ->]]; [| done].
  simpl.
  destruct (build_class_sample_loop_no_sample w norm Hw [] g1)
    as [[Hall_n _] | [_ ->]]; [| done].
  apply Exists_app in Hex as [Hex | Hex]; apply Exists_exists in Hex as (y & Hy & Hlt).
  - rewrite Forall_forall in Hall_d. specialize (Hall_d y Hy). lia.
  - rewrite Forall_forall in Hall_n. specialize (Hall_n y Hy). lia.
Qed.

Lemma create_sample_dicts_short_clip_witness :
  determine_num_crops short_dep short_norm 125 = inr 0 /\
  create_sample_dicts (short_dep, short_norm) 125 draws tiny_store
    = inl ZeroDivisionError.
Proof.
  apply (create_sample_dicts_short_clip short_dep short_norm 125 draws tiny_store).
  - unfold dict_wf. by_decide.
  - unfold dict_wf. by_decide.
  - apply Forall_forall. by_decide.
  - lia.
  - by_decide.
Defined.

(** *** A fresh directory *)

Lemma filter_fmap_all {A B} (P : B -> Prop) `{forall x, Decision (P x)}
    (f : A -> B) (l : list A) :
  (forall x, P (f x)) -> filter P (f <$> l) = f <$> l.
Proof.
  intros HP. induction l as [|x l IH]; [done |].
  rewrite fmap_cons, filter_cons_True by done. by rewrite IH.
Qed.

Lemma filter_fmap_none {A B} (P : B -> Prop) `{forall x, Decision (P x)}
    (f : A -> B) (l : list A) :
  (forall x, ~ P (f x)) -> filter P (f <$> l) = [].
Proof.
  intros HP. induction l as [|x l IH]; [done |].
  rewrite fmap_cons, filter_cons_False by done. by rewrite IH.
Qed.

Lemma save_classes_fresh (ds ns : dict nat (list ndarray)) :
  NoDup (keys ds) -> NoDup (keys ns) ->
  save_class "N" ns (save_class "D" ds [])
  = archive_items "D" ds ++ archive_items "N" ns.
Proof.
  intros Hd Hn. rewrite !save_class_update.
  rewrite (dict_update_fresh []) by by apply archive_items_wf.
  simpl. apply dict_update_fresh.
  unfold keys. rewrite map_app. apply NoDup_app.
  split_and!; [by apply archive_items_wf | | by apply archive_items_wf].
  fold (keys (archive_items "D" ds)). fold (keys (archive_items "N" ns)).
  rewrite !keys_archive_items.
  intros name (k & -> & _)%list_elem_of_fmap (k' & Heq & _)%list_elem_of_fmap.
  by apply archive_name_classes in Heq.
Qed.

Lemma listing_by_class (ds ns : dict nat (list ndarray)) :
  let dir := archive_items "D" ds ++ archive_items "N" ns in
  listdir dir = (archive_name "D" <$> keys ds) ++ (archive_name "N" <$> keys ns) /\
  dep_samps dir = archive_name "D" <$> keys ds /\
  norm_samps dir = archive_name "N" <$> keys ns.
Proof.
  intros dir.
  assert (listdir dir
          = (archive_name "D" <$> keys ds) ++ (archive_name "N" <$> keys ns)) as Hl.
  { unfold dir, listdir, keys at 1. rewrite map_app.
    fold (keys (archive_items "D" ds)). fold (keys (archive_items "N" ns)).
    by rewrite !keys_archive_items. }
  split_and!; [done | |].
  - unfold dep_samps. rewrite Hl, filter_app.
    rewrite filter_fmap_all, filter_fmap_none, app_nil_r; [done | |].
    + intros k. destruct (archive_name_N k) as [_ ->]. by intros [].
    + intros k. destruct (archive_name_D k) as [-> _]. exact I.
  - unfold norm_samps. rewrite Hl, filter_app.
    rewrite filter_fmap_none, filter_fmap_all; [done | |].
    + intros k. destruct (archive_name_N k) as [-> _]. exact I.
    + intros k. destruct (archive_name_D k) as [_ ->]. by intros [].
Qed.

Lemma sampled_from_shape (m : ndarray) (n w rows : nat) (crops : list ndarray) :
  0 < w -> Forall (fun c => length c = rows) m ->
  sampled_from m n w crops ->
  length crops = n /\ Forall (has_shape rows w) crops.
Proof.
  intros Hw Hrows (idxs & -> & Hlen & _ & Hlt). split; [by rewrite length_fmap |].
  apply Forall_fmap, Forall_forall. intros i Hi. rewrite Forall_forall in Hlt.
  apply grid_crop_shape; auto.
Qed.

Lemma archive_items_ok (p : string) (n w rows : nat) (items : list (nat * ndarray))
    (sampled : dict nat (list ndarray)) :
  0 < w ->
  Forall (fun item => Forall (fun c => length c = rows) item.2) items ->
  Forall2 (sampled_item n w) items sampled ->
  Forall (archive_ok n rows w) (archive_items p sampled).
Proof.
  intros Hw Hrows HF. revert Hrows.
  induction HF as [|[k m] [k' v] items sampled [_ Hs] _ IH]; intros Hrows.
  - constructor.
  - apply Forall_cons in Hrows as [Hm Hrows]. simpl in *.
    constructor; [| by apply IH].
    by apply (sampled_from_shape m).
Qed.

Lemma create_sample_dicts_fresh (dep norm : dict nat ndarray) (w : nat) (g : rng) :
  valid_corpus dep norm w ->
  exists n ds ns g',
    determine_num_crops dep norm w = inr n /\ 1 <= n /\
    keys ds = keys dep /\ keys ns = keys norm /\
    Forall2 (sampled_item n w) dep ds /\
    Forall2 (sampled_item n w) norm ns /\
    create_sample_dicts (dep, norm) w g []
      = inr (archive_items "D" ds ++ archive_items "N" ns, g').
Proof.
  intros Hvalid.
  destruct (create_sample_dicts_result dep norm w g [] Hvalid)
    as (n & ds & ns & g' & Hdet & Hn1 & Hkd & Hkn & HFd & HFn & Hres).
  destruct Hvalid as (Hd & Hn & _).
  exists n, ds, ns, g'. split_and!; try done.
  rewrite Hres, save_classes_fresh; [done | by rewrite Hkd | by rewrite Hkn].
Qed.

Lemma fresh_directory_ok (dep norm : dict nat ndarray) (n w rows : nat)
    (ds ns : dict nat (list ndarray)) :
  0 < w -> uniform_rows rows (dep ++ norm) ->
  Forall2 (sampled_item n w) dep ds -> Forall2 (sampled_item n w) norm ns ->
  Forall (archive_ok n rows w) (archive_items "D" ds ++ archive_items "N" ns).
Proof.
  intros Hw Hrows HFd HFn. unfold uniform_rows in Hrows.
  apply Forall_app in Hrows as [Hrd Hrn]. apply Forall_app. split.
  - by apply (archive_items_ok "D" n w rows dep).
  - by apply (archive_items_ok "N" n w rows norm).
Qed.

(** X9: on a valid corpus and an empty directory [create_sample_dicts]
    leaves exactly one archive per participant, each of [n] crops of shape
    (frequency_bins, crop_width); the files the split takes for depressed and
    normal are those of the depressed and the normal participants, so
    [max_samples] is the size of the smaller class. *)
Theorem create_sample_dicts_fresh_directory (dep norm : dict nat ndarray)
    (w rows : nat) (g : rng) :
  valid_corpus dep norm w -> uniform_rows rows (dep ++ norm) ->
  exists n dir g',
    determine_num_crops dep norm w = inr n /\
    create_sample_dicts (dep, norm) w g [] = inr (dir, g') /\
    listdir dir
      ≡ₚ (archive_name "D" <$> keys dep) ++ (archive_name "N" <$> keys norm) /\
    dep_samps dir ≡ₚ archive_name "D" <$> keys dep /\
    norm_samps dir ≡ₚ archive_name "N" <$> keys norm /\
    max_samples dir = Nat.min (length dep) (length norm) /\
    Forall (archive_ok n rows w) dir.
Proof.
  intros Hvalid Hrows.
  destruct (create_sample_dicts_fresh dep norm w g Hvalid)
    as (n & ds & ns & g' & Hdet & _ & Hkd & Hkn & HFd & HFn & Hres).
  destruct (listing_by_class ds ns) as (Hl & Hdl & Hnl).
  rewrite Hkd in Hl, Hdl. rewrite Hkn in Hl, Hnl.
  exists n, (archive_items "D" ds ++ archive_items "N" ns), g'.
  split_and!; [done | done | by rewrite Hl | by rewrite Hdl | by rewrite Hnl | |].
  - unfold max_samples. rewrite Hdl, Hnl, !length_fmap. unfold keys.
    by rewrite !length_map.
  - destruct Hvalid as (_ & _ & _ & Hw & _). by eapply fresh_directory_ok.
Qed.

Lemma create_sample_dicts_fresh_directory_witness :
  exists n dir g',
    determine_num_crops scenario_dep scenario_norm 125 = inr n /\
    create_sample_dicts (scenario_dep, scenario_norm) 125 draws [] = inr (dir, g') /\
    listdir dir
      ≡ₚ (archive_name "D" <$> keys scenario_dep)
         ++ (archive_name "N" <$> keys scenario_norm) /\
    dep_samps dir ≡ₚ archive_name "D" <$> keys scenario_dep /\
    norm_samps dir ≡ₚ archive_name "N" <$> keys scenario_norm /\
    max_samples dir = Nat.min (length scenario_dep) (length scenario_norm) /\
    Forall (archive_ok n 1 125) dir.
Proof.
  apply (create_sample_dicts_fresh_directory scenario_dep scenario_norm 125 1 draws).
  - valid_corpus_by_evaluation.
  - unfold uniform_rows. by_decide.
Defined.

(** ** rand_samp_train_test_split: the participants of a run *)

(** X10: in every run that returns on a directory of distinct names, each
    of the two selections holds [max_samples] different archives, all
    listed in the directory and all of the class the selection is for. *)
Theorem split_selection_without_replacement (dir : directory) (g g' : rng)
    (r : split) :
  NoDup (listdir dir) ->
  rand_samp_train_test_split dir g = inr (r, g') ->
  exists dsel nsel g1,
    np_random_choice (dep_samps dir) (max_samples dir) g = inr (dsel, g1) /\
    np_random_choice (norm_samps dir) (max_samples dir) g1 = inr (nsel, g') /\
    length dsel = max_samples dir /\ length nsel = max_samples dir /\
    NoDup dsel /\ NoDup nsel /\
    (forall f, f ∈ dsel -> f ∈ listdir dir /\ startswith f "D" = true) /\
    (forall f, f ∈ nsel -> f ∈ listdir dir /\ startswith f "N" = true).
Proof.
  intros Hnd Hrun.
  destruct (rand_samp_train_test_split_returned dir g g' r Hrun)
    as (dsel & nsel & g1 & g2 & rest_d & rest_n & Hd & Hn & Hld & Hln & Hpd & Hpn & Hres).
  rewrite Hres in Hrun. injection Hrun as _ <-.
  exists dsel, nsel, g1. split_and!; [done | done | done | done | | | |].
  - eapply chosen_NoDup; [| exact Hpd]. by apply NoDup_filter.
  - eapply chosen_NoDup; [| exact Hpn]. by apply NoDup_filter.
  - intros f Hf. by apply dep_samps_listed, (chosen_subset dsel rest_d).
  - intros f Hf. by apply norm_samps_listed, (chosen_subset nsel rest_n).
Qed.

Lemma split_selection_without_replacement_witness :
  exists r g' dsel nsel g1,
    rand_samp_train_test_split scenario_store draws = inr (r, g') /\
    np_random_choice (dep_samps scenario_store) (max_samples scenario_store) draws
      = inr (dsel, g1) /\
    np_random_choice (norm_samps scenario_store) (max_samples scenario_store) g1
      = inr (nsel, g') /\
    length dsel = max_samples scenario_store /\
    length nsel = max_samples scenario_store /\
    NoDup dsel /\ NoDup nsel /\
    (forall f, f ∈ dsel -> f ∈ listdir scenario_store /\ startswith f "D" = true) /\
    (forall f, f ∈ nsel -> f ∈ listdir scenario_store /\ startswith f "N" = true).
Proof.
  assert (exists r g', rand_samp_train_test_split scenario_store draws = inr (r, g'))
    as (r & g' & Hrun) by (eexists _, _; vm_compute; reflexivity).
  assert (NoDup (listdir scenario_store)) as Hnd by by_decide.
  destruct (split_selection_without_replacement scenario_store draws g' r Hnd Hrun)
    as (dsel & nsel & g1 & H).
  exists r, g', dsel, nsel, g1. split; [exact Hrun | exact H].
Defined.

(** X11: in every run that returns, each selected participant is read by
    exactly one of the train and the test loops, whatever the number of test
    participants: train and test samples together are, up to order, the
    crops of all selected archives. *)
Theorem split_uses_every_selected (dir : directory) (g g' : rng) (r : split) :
  rand_samp_train_test_split dir g = inr (r, g') ->
  exists dsel nsel g1,
    np_random_choice (dep_samps dir) (max_samples dir) g = inr (dsel, g1) /\
    np_random_choice (norm_samps dir) (max_samples dir) g1 = inr (nsel, g') /\
    train_participants dsel nsel ++ test_participants dsel nsel ≡ₚ dsel ++ nsel /\
    train_samples r ++ test_samples r
      ≡ₚ crops_of_all dir dsel ++ crops_of_all dir nsel.
Proof.
  intros Hrun.
  destruct (rand_samp_train_test_split_returned dir g g' r Hrun)
    as (dsel & nsel & g1 & g2 & _ & _ & Hd & Hn & _ & _ & _ & _ & Hres).
  rewrite Hres in Hrun. injection Hrun as <- <-.
  exists dsel, nsel, g1. split_and!; [done | done | |].
  - unfold train_participants, test_participants.
    set (b := (- Z.of_nat (int_mul_test_size (length dsel)))%Z).
    rewrite <- (slice_to_from b dsel) at 3. rewrite <- (slice_to_from b nsel) at 3.
    rewrite <- !app_assoc. f_equiv. rewrite !app_assoc. f_equiv.
    apply Permutation_app_comm.
  - simpl. unfold train_participants, test_participants.
    set (b := (- Z.of_nat (int_mul_test_size (length dsel)))%Z).
    rewrite !crops_of_all_app.
    rewrite <- (slice_to_from b dsel) at 3. rewrite <- (slice_to_from b nsel) at 3.
    rewrite !crops_of_all_app.
    rewrite <- !app_assoc. f_equiv. rewrite !app_assoc. f_equiv.
    apply Permutation_app_comm.
Qed.

Lemma split_uses_every_selected_witness :
  exists r g' dsel nsel g1,
    rand_samp_train_test_split scenario_store draws = inr (r, g') /\
    np_random_choice (dep_samps scenario_store) (max_samples scenario_store) draws
      = inr (dsel, g1) /\
    np_random_choice (norm_samps scenario_store) (max_samples scenario_store) g1
      = inr (nsel, g') /\
    train_participants dsel nsel ++ test_participants dsel nsel ≡ₚ dsel ++ nsel /\
    train_samples r ++ test_samples r
      ≡ₚ crops_of_all scenario_store dsel ++ crops_of_all scenario_store nsel.
Proof.
  assert (exists r g', rand_samp_train_test_split scenario_store draws = inr (r, g'))
    as (r & g' & Hrun) by (eexists _, _; vm_compute; reflexivity).
  destruct (split_uses_every_selected scenario_store draws g' r Hrun)
    as (dsel & nsel & g1 & H).
  exists r, g', dsel, nsel, g1. split; [exact Hrun | exact H].
Defined.

(** X12: in every run that returns, the train partition holds as many
    depressed as normal participants and so does the test partition; each
    class's train and test participants together are its [max_samples]
    selected ones. *)
Theorem split_balanced_participants (dir : directory) (g g' : rng) (r : split) :
  rand_samp_train_test_split dir g = inr (r, g') ->
  exists dsel nsel g1 train_d train_n test_d test_n,
    np_random_choice (dep_samps dir) (max_samples dir) g = inr (dsel, g1) /\
    np_random_choice (norm_samps dir) (max_samples dir) g1 = inr (nsel, g') /\
    train_participants dsel nsel = train_d ++ train_n /\
    test_participants dsel nsel = test_d ++ test_n /\
    train_d ++ test_d = dsel /\ train_n ++ test_n = nsel /\
    length train_d = length train_n /\
    length test_d = length test_n /\
    length train_d + length test_d = max_samples dir.
Proof.
  intros Hrun.
  destruct (rand_samp_train_test_split_returned dir g g' r Hrun)
    as (dsel & nsel & g1 & g2 & _ & _ & Hd & Hn & Hld & Hln & _ & _ & Hres).
  rewrite Hres in Hrun. injection Hrun as _ <-.
  set (b := (- Z.of_nat (int_mul_test_size (length dsel)))%Z).
  exists dsel, nsel, g1, (slice_to b dsel), (slice_to b nsel),
         (slice_from b dsel), (slice_from b nsel).
  split_and!; [done | done | done | done | apply slice_to_from
              | apply slice_to_from | | |].
  - unfold slice_to. by rewrite !length_take, Hld, Hln.
  - unfold slice_from. by rewrite !length_drop, Hld, Hln.
  - rewrite <- Hld. rewrite <- (slice_to_from b dsel) at 3. by rewrite length_app.
Qed.

Lemma split_balanced_participants_witness :
  exists r g' dsel nsel g1 train_d train_n test_d test_n,
    rand_samp_train_test_split scenario_store draws = inr (r, g') /\
    np_random_choice (dep_samps scenario_store) (max_samples scenario_store) draws
      = inr (dsel, g1) /\
    np_random_choice (norm_samps scenario_store) (max_samples scenario_store) g1
      = inr (nsel, g') /\
    train_participants dsel nsel = train_d ++ train_n /\
    test_participants dsel nsel = test_d ++ test_n /\
    train_d ++ test_d = dsel /\ train_n ++ test_n = nsel /\
    length train_d = length train_n /\
    length test_d = length test_n /\
    length train_d + length test_d = max_samples scenario_store.
Proof.
  assert (exists r g', rand_samp_train_test_split scenario_store draws = inr (r, g'))
    as (r & g' & Hrun) by (eexists _, _; vm_compute; reflexivity).
  destruct (split_balanced_participants scenario_store draws g' r Hrun)
    as (dsel & nsel & g1 & train_d & train_n & test_d & test_n & H).
  exists r, g', dsel, nsel, g1, train_d, train_n, test_d, test_n.
  split; [exact Hrun | exact H].
Defined.

(** ** rand_samp_train_test_split: archives of equal size *)

Lemma dict_get_listed {K V} `{EqDecision K} (k : K) (d : dict K V) :
  k ∈ keys d -> exists v, dict_get k d = Some v /\ (k, v) ∈ d.
Proof.
  induction d as [|[k' v'] d IH]; intros Hk; [by apply elem_of_nil in Hk |].
  simpl. destruct (decide (k = k')) as [-> | Hne].
  - exists v'. split; [done | apply list_elem_of_here].
  - change (keys ((k', v') :: d)) with (k' :: keys d) in Hk.
    apply elem_of_cons in Hk as [? | Hk]; [done |].
    destruct (IH Hk) as (v & Hv & Hin).
    exists v. split; [done | by apply list_elem_of_further].
Qed.

Lemma crops_of_listed (P : string * npz -> Prop) (dir : directory) (f : string) :
  Forall P dir -> f ∈ listdir dir -> P (f, crops_of dir f).
Proof.
  intros HP Hf. destruct (dict_get_listed f dir Hf) as (v & Hv & Hin).
  unfold crops_of. rewrite Hv. simpl. rewrite Forall_forall in HP. by apply HP.
Qed.

Lemma crops_of_all_length (dir : directory) (n : nat) (files : list string) :
  Forall (fun file => length file.2 = n) dir ->
  Forall (fun f => f ∈ listdir dir) files ->
  length (crops_of_all dir files) = length files * n.
Proof.
  intros Hn Hfiles. unfold crops_of_all.
  induction Hfiles as [|f files Hf _ IH]; [done |].
  rewrite fmap_cons. simpl. rewrite length_app, IH.
  pose proof (crops_of_listed (fun file => length file.2 = n) dir f Hn Hf) as Hlen.
  simpl in Hlen. by rewrite Hlen.
Qed.

Lemma crops_of_all_Forall (Q : ndarray -> Prop) (dir : directory)
    (files : list string) :
  Forall (fun file => Forall Q file.2) dir ->
  Forall (fun f => f ∈ listdir dir) files ->
  Forall Q (crops_of_all dir files).
Proof.
  intros HQ Hfiles. unfold crops_of_all.
  induction Hfiles as [|f files Hf _ IH]; [constructor |].
  rewrite fmap_cons. simpl. apply Forall_app. split; [| done].
  by apply (crops_of_listed (fun file => Forall Q file.2) dir f).
Qed.

Lemma make_labels_halves (xs ys : list ndarray) :
  length xs = length ys ->
  make_labels (xs ++ ys)
  = replicate (length xs) 1%Z ++ replicate (length ys) 0%Z.
Proof.
  intros Hlen. unfold make_labels. rewrite length_app, <- Hlen.
  replace ((length xs + length xs) / 2) with (length xs); [done |].
  replace (length xs + length xs) with (length xs * 2) by lia.
  by rewrite Nat.div_mul.
Qed.

Lemma split_listed (dir : directory) (dsel nsel rest_d rest_n : list string) :
  dsel ++ rest_d ≡ₚ dep_samps dir -> nsel ++ rest_n ≡ₚ norm_samps dir ->
  forall b,
    Forall (fun f => f ∈ listdir dir) (slice_to b dsel) /\
    Forall (fun f => f ∈ listdir dir) (slice_to b nsel) /\
    Forall (fun f => f ∈ listdir dir) (slice_from b dsel) /\
    Forall (fun f => f ∈ listdir dir) (slice_from b nsel).
Proof.
  intros Hpd Hpn b. split_and!; apply Forall_forall; intros f Hf.
  - apply slice_to_subset in Hf.
    by apply dep_samps_listed, (chosen_subset dsel rest_d).
  - apply slice_to_subset in Hf.
    by apply norm_samps_listed, (chosen_subset nsel rest_n).
  - apply slice_from_subset in Hf.
    by apply dep_samps_listed, (chosen_subset dsel rest_d).
  - apply slice_from_subset in Hf.
    by apply norm_samps_listed, (chosen_subset nsel rest_n).
Qed.

(** X13: when every archive of the directory holds the same number of
    crops, the labels of a run follow the classes position by position: the
    train samples are the crops of the depressed train participants followed
    by those of the normal ones, the train labels are as many 1s as there
    are depressed crops followed by as many 0s as there are normal crops,
    and likewise for test. *)
Theorem split_labels_follow_classes (dir : directory) (n : nat) (g g' : rng)
    (r : split) :
  Forall (fun file => length file.2 = n) dir ->
  rand_samp_train_test_split dir g = inr (r, g') ->
  exists dsel nsel g1,
    np_random_choice (dep_samps dir) (max_samples dir) g = inr (dsel, g1) /\
    np_random_choice (norm_samps dir) (max_samples dir) g1 = inr (nsel, g') /\
    let b := (- Z.of_nat (int_mul_test_size (length dsel)))%Z in
    train_samples r
      = crops_of_all dir (slice_to b dsel) ++ crops_of_all dir (slice_to b nsel) /\
    train_labels r
      = replicate (length (crops_of_all dir (slice_to b dsel))) 1%Z
        ++ replicate (length (crops_of_all dir (slice_to b nsel))) 0%Z /\
    test_samples r
      = crops_of_all dir (slice_from b dsel) ++ crops_of_all dir (slice_from b nsel) /\
    test_labels r
      = replicate (length (crops_of_all dir (slice_from b dsel))) 1%Z
        ++ replicate (length (crops_of_all dir (slice_from b nsel))) 0%Z.
Proof.
  intros Hsize Hrun.
  destruct (rand_samp_train_test_split_returned dir g g' r Hrun)
    as (dsel & nsel & g1 & g2 & rest_d & rest_n & Hd & Hn & Hld & Hln & Hpd & Hpn & Hres).
  rewrite Hres in Hrun. injection Hrun as <- <-.
  exists dsel, nsel, g1. split_and!; [done | done |]. intros b.
  destruct (split_listed dir dsel nsel rest_d rest_n Hpd Hpn b)
    as (Htd & Htn & Hsd & Hsn).
  unfold split_of, train_participants, test_participants. fold b. simpl.
  rewrite !crops_of_all_app.
  split_and!; [done | | done |].
  - apply make_labels_halves.
    rewrite !(crops_of_all_length dir n) by done.
    unfold slice_to. by rewrite !length_take, Hld, Hln.
  - apply make_labels_halves.
    rewrite !(crops_of_all_length dir n) by done.
    unfold slice_from. by rewrite !length_drop, Hld, Hln.
Qed.

Lemma split_labels_follow_classes_witness :
  exists r g' dsel nsel g1,
    rand_samp_train_test_split scenario_store draws = inr (r, g') /\
    np_random_choice (dep_samps scenario_store) (max_samples scenario_store) draws
      = inr (dsel, g1) /\
    np_random_choice (norm_samps scenario_store) (max_samples scenario_store) g1
      = inr (nsel, g') /\
    let b := (- Z.of_nat (int_mul_test_size (length dsel)))%Z in
    train_samples r
      = crops_of_all scenario_store (slice_to b dsel)
        ++ crops_of_all scenario_store (slice_to b nsel) /\
    train_labels r
      = replicate (length (crops_of_all scenario_store (slice_to b dsel))) 1%Z
        ++ replicate (length (crops_of_all scenario_store (slice_to b nsel))) 0%Z /\
    test_samples r
      = crops_of_all scenario_store (slice_from b dsel)
        ++ crops_of_all scenario_store (slice_from b nsel) /\
    test_labels r
      = replicate (length (crops_of_all scenario_store (slice_from b dsel))) 1%Z
        ++ replicate (length (crops_of_all scenario_store (slice_from b nsel))) 0%Z.
Proof.
  assert (exists r g', rand_samp_train_test_split scenario_store draws = inr (r, g'))
    as (r & g' & Hrun) by (eexists _, _; vm_compute; reflexivity).
  assert (Forall (fun file => length file.2 = 3) scenario_store) as Hsize
    by by_decide.
  destruct (split_labels_follow_classes scenario_store 3 draws g' r Hsize Hrun)
    as (dsel & nsel & g1 & H).
  exists r, g', dsel, nsel, g1. split; [exact Hrun | exact H].
Defined.

(** ** rand_samp_train_test_split: files of no class *)

Lemma crops_of_all_same (dir dir' : directory) (files : list string) :
  Forall (fun f => dict_get f dir' = dict_get f dir) files ->
  crops_of_all dir' files = crops_of_all dir files.
Proof.
  intros Hsame. unfold crops_of_all. f_equal.
  induction Hsame as [|f files Hf _ IH]; [done |].
  rewrite !fmap_cons, IH. unfold crops_of. by rewrite Hf.
Qed.

(** X14: what [rand_samp_train_test_split] returns depends on the directory
    only through its class files: two directories whose listings give the
    same depressed and the same normal names, in the same order, and whose
    archives under these names are the same, give the same result. Files
    under other names, such as the four results the script saves into the
    directory, play no part. *)
Theorem split_ignores_other_files (dir dir' : directory) (g : rng) :
  dep_samps dir' = dep_samps dir -> norm_samps dir' = norm_samps dir ->
  Forall (fun f => dict_get f dir' = dict_get f dir)
         (dep_samps dir ++ norm_samps dir) ->
  rand_samp_train_test_split dir' g = rand_samp_train_test_split dir g.
Proof.
  intros Hdep Hnorm Hsame. rewrite Forall_forall in Hsame.
  destruct (rand_samp_train_test_split_run dir' g)
    as (dsel & nsel & g1 & g2 & rest_d & rest_n & Hd & Hn & _ & _ & Hpd & Hpn & ->).
  destruct (rand_samp_train_test_split_run dir g)
    as (dsel' & nsel' & g1' & g2' & _ & _ & Hd' & Hn' & _ & _ & _ & _ & ->).
  unfold max_samples in Hd, Hn. rewrite Hdep, Hnorm in Hd, Hn.
  rewrite Hdep in Hpd. rewrite Hnorm in Hpn.
  fold (max_samples dir) in Hd, Hn.
  rewrite Hd' in Hd. injection Hd as <- <-.
  rewrite Hn' in Hn. injection Hn as <- <-.
  assert (forall files,
            (forall f, f ∈ files -> f ∈ dsel' \/ f ∈ nsel') ->
            crops_of_all dir' files = crops_of_all dir files) as Hcrops.
  { intros files Hfiles. apply crops_of_all_same, Forall_forall.
    intros f Hf. apply Hsame, elem_of_app.
    destruct (Hfiles f Hf) as [Hsel | Hsel].
    - left. by apply (chosen_subset dsel' rest_d).
    - right. by apply (chosen_subset nsel' rest_n). }
  assert (crops_of_all dir' (train_participants dsel' nsel')
          = crops_of_all dir (train_participants dsel' nsel')) as Htrain.
  { apply Hcrops. unfold train_participants. intros f [Hf | Hf]%elem_of_app.
    - left. by apply slice_to_subset in Hf.
    - right. by apply slice_to_subset in Hf. }
  assert (crops_of_all dir' (test_participants dsel' nsel')
          = crops_of_all dir (test_participants dsel' nsel')) as Htest.
  { apply Hcrops. unfold test_participants. intros f [Hf | Hf]%elem_of_app.
    - left. by apply slice_from_subset in Hf.
    - right. by apply slice_from_subset in Hf. }
  unfold split_of. simpl. by rewrite Htrain, Htest.
Qed.

Lemma split_ignores_other_files_witness :
  rand_samp_train_test_split
    (np_savez "train_samples.npz" [crop1 0] scenario_store) draws
  = rand_samp_train_test_split scenario_store draws.
Proof.
  apply (split_ignores_other_files scenario_store
           (np_savez "train_samples.npz" [crop1 0] scenario_store) draws).
  - vm_compute. reflexivity.
  - vm_compute. reflexivity.
  - by_decide.
Defined.

(** ** The script on a fresh directory *)

(** X15: on a valid corpus (crop width 125) and an empty directory the
    script returns a split, whatever the states of the two generators: every
    crop in it has shape (frequency_bins, 125), train and test together hold
    [n] crops for each of the [min(#depressed, #normal)] participants
    selected per class, where [n] is the number [determine_num_crops]
    returns, and each label array is as long as its sample array. *)
Theorem main_fresh_run (np_seed : nat -> rng) (py_random : rng)
    (dep norm : dict nat ndarray) (rows : nat) :
  valid_corpus dep norm 125 -> uniform_rows rows (dep ++ norm) ->
  exists n s,
    determine_num_crops dep norm 125 = inr n /\ 1 <= n /\
    main np_seed py_random (dep, norm) [] = inr s /\
    Forall (has_shape rows 125) (train_samples s ++ test_samples s) /\
    length (train_samples s) + length (test_samples s)
      = 2 * Nat.min (length dep) (length norm) * n /\
    length (train_labels s) = length (train_samples s) /\
    length (test_labels s) = length (test_samples s).
Proof.
  intros Hvalid Hrows.
  destruct (create_sample_dicts_fresh dep norm 125 py_random Hvalid)
    as (n & ds & ns & g' & Hdet & Hn1 & Hkd & Hkn & HFd & HFn & Hres).
  set (dir := archive_items "D" ds ++ archive_items "N" ns) in *.
  assert (Forall (archive_ok n rows 125) dir) as Hok
    by (eapply fresh_directory_ok; [lia | done | done | done]).
  assert (Forall (fun file => length file.2 = n) dir) as Hsize
    by (eapply Forall_impl; [exact Hok | by intros file [? _]]).
  assert (Forall (fun file => Forall (has_shape rows 125) file.2) dir) as Hshape
    by (eapply Forall_impl; [exact Hok | by intros file [_ ?]]).
  destruct (listing_by_class ds ns) as (_ & Hdl & Hnl). fold dir in Hdl, Hnl.
  assert (max_samples dir = Nat.min (length dep) (length norm)) as Hmax.
  { unfold max_samples. rewrite Hdl, Hnl, !length_fmap, Hkd, Hkn.
    unfold keys. by rewrite !length_map. }
  destruct (rand_samp_train_test_split_uniform dir (np_seed 15) rows 125 Hshape)
    as (dsel & nsel & g1 & g2 & rest_d & rest_n & _ & _ & Hld & Hln & Hpd & Hpn & Hrun).
  set (b := (- Z.of_nat (int_mul_test_size (length dsel)))%Z).
  destruct (split_listed dir dsel nsel rest_d rest_n Hpd Hpn b)
    as (Htd & Htn & Hsd & Hsn).
  exists n, (split_of dir dsel nsel).
  split_and!; [done | done | | | | |].
  - unfold main. rewrite Hres. simpl. fold dir. by rewrite Hrun.
  - unfold split_of, train_participants, test_participants. fold b. simpl.
    rewrite !crops_of_all_app, !Forall_app.
    split_and!; by apply crops_of_all_Forall.
  - unfold split_of, train_participants, test_participants. fold b. simpl.
    rewrite !crops_of_all_app, !length_app.
    rewrite !(crops_of_all_length dir n) by done.
    pose proof (f_equal length (slice_to_from b dsel)) as Hd'.
    pose proof (f_equal length (slice_to_from b nsel)) as Hn'.
    rewrite length_app in Hd', Hn'. rewrite <- Hmax. nia.
  - unfold split_of, train_participants. fold b. simpl.
    rewrite crops_of_all_app, make_labels_halves.
    + by rewrite !length_app, !length_replicate.
    + rewrite !(crops_of_all_length dir n) by done.
      unfold slice_to. by rewrite !length_take, Hld, Hln.
  - unfold split_of, test_participants. fold b. simpl.
    rewrite crops_of_all_app, make_labels_halves.
    + by rewrite !length_app, !length_replicate.
    + rewrite !(crops_of_all_length dir n) by done.
      unfold slice_from. by rewrite !length_drop, Hld, Hln.
Qed.

Lemma main_fresh_run_witness :
  exists n s,
    determine_num_crops scenario_dep scenario_norm 125 = inr n /\ 1 <= n /\
    main (fun seed => [seed]) draws (scenario_dep, scenario_norm) [] = inr s /\
    Forall (has_shape 1 125) (train_samples s ++ test_samples s) /\
    length (train_samples s) + length (test_samples s)
      = 2 * Nat.min (length scenario_dep) (length scenario_norm) * n /\
    length (train_labels s) = length (train_samples s) /\
    length (test_labels s) = length (test_samples s).
Proof.
  apply (main_fresh_run (fun seed => [seed]) draws scenario_dep scenario_norm 1).
  - valid_corpus_by_evaluation.
  - unfold uniform_rows. by_decide.
Defined.
